(** * nl-movie: a natural-language front end to a movie catalog

    Shallow embedding of [main.py]: the intent-to-action pipeline
    ([get_intent_from_llm], the body of [main]) and the three handlers
    ([handle_get_popular_movies], [handle_get_movie_details],
    [handle_get_actor_credits]).

    Conventions of the embedding.
    - A Python [str] is a [string] with one [ascii] per character (texts
      whose code points are below 256).
    - A value decoded from JSON is a [json]; a decoded [dict] keeps one entry
      per key, in insertion order.  A [float] is the rational it denotes
      (the literals NaN and Infinity are outside the model).
    - A computation that may raise is an [outcome]; a computation that may
      also query the catalog is an [M], which threads the list of requests
      issued so far.  The list survives an exception.
    - The diagnostic [print] calls write to the terminal only and are left
      out; the text printed after "Assistant:" is the value of a turn. *)

From Stdlib Require Import List String Ascii Bool ZArith QArith Lia.
From Stdlib Require Import Permutation Sorted DecimalString.
Import ListNotations.

Local Close Scope Q_scope.
Local Open Scope list_scope.
Local Open Scope string_scope.

(** ** Values *)

#[warnings="-register-all"]
Inductive json : Type :=
| JNull
| JBool (b : bool)
| JInt (n : Z)
| JFloat (q : Q)
| JString (s : string)
| JArray (items : list json)
| JObject (fields : list (string * json)).

(** The exception classes that the program can meet. *)
Inductive exn : Type :=
| KeyError (key : json)
| IndexError
| TypeError
| AttributeError
| RequestException (detail : string)
| JSONDecodeError
| LLMCallError
| EOFError.

Inductive outcome (A : Type) : Type :=
| Returned (a : A)
| Raised (e : exn).

Arguments Returned {A} a.
Arguments Raised {A} e.

Definition oret {A} (a : A) : outcome A := Returned a.

Definition obind {A B} (c : outcome A) (k : A -> outcome B) : outcome B :=
  match c with
  | Returned a => k a
  | Raised e => Raised e
  end.

Declare Scope outcome_scope.
Delimit Scope outcome_scope with outcome.
Notation "x <- c ;; k" := (obind c (fun x => k))
  (at level 61, c at next level, right associativity) : outcome_scope.

(** [[f(x) for x in l]]: left to right, the first exception wins. *)
Fixpoint omap {A B} (f : A -> outcome B) (l : list A) : outcome (list B) :=
  match l with
  | [] => Returned []
  | x :: l' =>
      (y <- f x ;;
       ys <- omap f l' ;;
       oret (y :: ys))%outcome
  end.

(** ** Strings *)

Definition nl : string := String (ascii_of_nat 10) EmptyString.

(** [sep.join(l)] *)
Fixpoint join (sep : string) (l : list string) : string :=
  match l with
  | [] => EmptyString
  | [s] => s
  | s :: l' => s ++ sep ++ join sep l'
  end.

(** [str.isspace] on one character below 256. *)
Definition is_space (c : ascii) : bool :=
  let n := nat_of_ascii c in
  (((9 <=? n) && (n <=? 13)) || ((28 <=? n) && (n <=? 32))
   || (n =? 133) || (n =? 160))%nat.

Fixpoint lstrip (s : string) : string :=
  match s with
  | String c s' => if is_space c then lstrip s' else s
  | EmptyString => EmptyString
  end.

Fixpoint rstrip (s : string) : string :=
  match s with
  | String c s' =>
      match rstrip s' with
      | EmptyString => if is_space c then EmptyString else String c EmptyString
      | r => String c r
      end
  | EmptyString => EmptyString
  end.

(** [s.strip()] *)
Definition strip (s : string) : string := rstrip (lstrip s).

(** [s.replace(old, empty)] for a non-empty [old]: the occurrences are removed
    left to right, without overlap.  [skip] counts the characters of the
    occurrence under removal that are still to be dropped. *)
Fixpoint remove_from (old : string) (skip : nat) (s : string) : string :=
  match s with
  | EmptyString => EmptyString
  | String c s' =>
      match skip with
      | S k => remove_from old k s'
      | O =>
          if String.prefix old s then remove_from old (String.length old - 1) s'
          else String c (remove_from old 0 s')
      end
  end.

Definition remove_all (old s : string) : string := remove_from old 0 s.

(** [needle in s] on strings. *)
Fixpoint str_contains (needle s : string) : bool :=
  String.prefix needle s
  || match s with
     | EmptyString => false
     | String _ s' => str_contains needle s'
     end.

(** [s.lower()] on characters below 256: A-Z, and the upper-case letters of
    Latin-1 (192-222 but the multiplication sign 215). *)
Definition lower_char (c : ascii) : ascii :=
  let n := nat_of_ascii c in
  if (((65 <=? n) && (n <=? 90))
      || ((192 <=? n) && (n <=? 222) && negb (n =? 215)))%nat
  then ascii_of_nat (n + 32) else c.

Fixpoint lower (s : string) : string :=
  match s with
  | EmptyString => EmptyString
  | String c s' => String (lower_char c) (lower s')
  end.

(** ** Python operations on decoded values *)

Fixpoint dict_lookup (k : string) (kv : list (string * json)) : option json :=
  match kv with
  | [] => None
  | (k', v) :: kv' => if String.eqb k k' then Some v else dict_lookup k kv'
  end.

Definition is_dict (v : json) : bool :=
  match v with
  | JObject _ => true
  | _ => false
  end.

(** [d.get(k, default)] *)
Definition py_get (d : json) (k : string) (default : json) : outcome json :=
  match d with
  | JObject kv =>
      Returned (match dict_lookup k kv with Some v => v | None => default end)
  | _ => Raised AttributeError
  end.

(** [d[k]] for a string [k] *)
Definition py_getitem (d : json) (k : string) : outcome json :=
  match d with
  | JObject kv =>
      match dict_lookup k kv with
      | Some v => Returned v
      | None => Raised (KeyError (JString k))
      end
  | _ => Raised TypeError
  end.

(** [x[0]] *)
Definition py_first (x : json) : outcome json :=
  match x with
  | JArray (y :: _) => Returned y
  | JArray [] => Raised IndexError
  | JString (String c _) => Returned (JString (String c EmptyString))
  | JString EmptyString => Raised IndexError
  | JObject _ => Raised (KeyError (JInt 0))
  | _ => Raised TypeError
  end.

(** [x[:n]]; on a dict the slice is refused (TypeError up to Python 3.11,
    KeyError from 3.12 on). *)
Definition py_slice_to (n : nat) (x : json) : outcome json :=
  match x with
  | JArray l => Returned (JArray (firstn n l))
  | JString s => Returned (JString (substring 0 n s))
  | _ => Raised TypeError
  end.

Fixpoint chars (s : string) : list json :=
  match s with
  | EmptyString => []
  | String c s' => JString (String c EmptyString) :: chars s'
  end.

(** The elements that [for x in v] visits. *)
Definition py_iter (v : json) : outcome (list json) :=
  match v with
  | JArray l => Returned l
  | JString s => Returned (chars s)
  | JObject kv => Returned (map (fun p => JString (fst p)) kv)
  | _ => Raised TypeError
  end.

(** [bool(v)], as in [if not results] *)
Definition py_truthy (v : json) : bool :=
  match v with
  | JNull => false
  | JBool b => b
  | JInt n => negb (Z.eqb n 0)
  | JFloat q => negb (Qeq_bool q 0)
  | JString s => negb (String.eqb s EmptyString)
  | JArray l => match l with [] => false | _ => true end
  | JObject kv => match kv with [] => false | _ => true end
  end.

(** The number a value denotes, if it is one ([bool] is a subtype of [int]). *)
Definition num_val (v : json) : option Q :=
  match v with
  | JBool b => Some (inject_Z (if b then 1 else 0))
  | JInt n => Some (inject_Z n)
  | JFloat q => Some q
  | _ => None
  end.

(** [a == b] *)
Fixpoint py_eq (a b : json) {struct a} : bool :=
  match a, b with
  | JNull, JNull => true
  | JString s, JString t => String.eqb s t
  | JArray xs, JArray ys =>
      (fix all2 (xs ys : list json) {struct xs} : bool :=
         match xs, ys with
         | [], [] => true
         | x :: xs', y :: ys' => py_eq x y && all2 xs' ys'
         | _, _ => false
         end) xs ys
  | JObject kv, JObject kv' =>
      Nat.eqb (List.length kv) (List.length kv')
      && (fix sub (kv : list (string * json)) {struct kv} : bool :=
            match kv with
            | [] => true
            | (k, v) :: r =>
                match dict_lookup k kv' with
                | Some v' => py_eq v v'
                | None => false
                end && sub r
            end) kv
  | _, _ =>
      match num_val a, num_val b with
      | Some p, Some q => Qeq_bool p q
      | _, _ => false
      end
  end.

(** [a == s] for a string literal [s] *)
Definition py_eq_str (a : json) (s : string) : bool := py_eq a (JString s).

Definition Qlt_bool (p q : Q) : bool := negb (Qle_bool q p).

(** [s < t] on strings: by code point, a proper prefix first. *)
Definition str_ltb (s t : string) : bool :=
  match String.compare s t with
  | Lt => true
  | _ => false
  end.

(** [a < b]: numbers by value, strings and lists lexicographically, a
    TypeError otherwise. *)
Fixpoint py_lt (a b : json) {struct a} : outcome bool :=
  match a, b with
  | JString s, JString t => Returned (str_ltb s t)
  | JArray xs, JArray ys =>
      (fix lex (xs ys : list json) {struct xs} : outcome bool :=
         match xs, ys with
         | [], [] => Returned false
         | [], _ :: _ => Returned true
         | _ :: _, [] => Returned false
         | x :: xs', y :: ys' => if py_eq x y then lex xs' ys' else py_lt x y
         end) xs ys
  | _, _ =>
      match num_val a, num_val b with
      | Some p, Some q => Returned (Qlt_bool p q)
      | _, _ => Raised TypeError
      end
  end.

(** [needle in container] for a string [needle] *)
Definition py_contains (needle : string) (container : json) : outcome bool :=
  match container with
  | JObject kv =>
      Returned (match dict_lookup needle kv with Some _ => true | None => false end)
  | JArray l => Returned (existsb (fun x => py_eq_str x needle) l)
  | JString s => Returned (str_contains needle s)
  | _ => Raised TypeError
  end.

(** [str(n)] for an [int] *)
Definition int_str (n : Z) : string := NilZero.string_of_int (Z.to_int n).

(** ** Computations that query the catalog *)

(** One [requests.get(url, params=...)]. *)
Record request : Type := { url : string; params : list (string * json) }.

(** What one catalog call gives: a [requests.RequestException] (raised by
    [requests.get], by [raise_for_status] or by [response.json]) or the
    decoded body. *)
Inductive reply : Type :=
| Failed (detail : string)
| Body (body : json).

(** What [client.messages.create] gives, as line 152 sees it: an exception;
    a response object that has a [text] attribute (a test double has
    one); or a [Message] of the anthropic client built on line 17, whose
    reply is held in [content] and which has no [text] attribute, so that
    reading [response.text] raises AttributeError. *)
Inductive completion : Type :=
| Unavailable
| Text (text : string)
| Message (content : string).

(** [hasattr(response, "text")], false when there is no response. *)
Definition has_text (c : completion) : bool :=
  match c with
  | Text _ => true
  | _ => false
  end.

Definition M (A : Type) : Type := list request -> outcome A * list request.

Definition mret {A} (a : A) : M A := fun log => (Returned a, log).

Definition mbind {A B} (c : M A) (k : A -> M B) : M B :=
  fun log =>
    match c log with
    | (Returned a, log') => k a log'
    | (Raised e, log') => (Raised e, log')
    end.

Definition lift {A} (c : outcome A) : M A := fun log => (c, log).

Declare Scope catalog_scope.
Delimit Scope catalog_scope with catalog.
Notation "x <- c ;; k" := (mbind c (fun x => k))
  (at level 61, c at next level, right associativity) : catalog_scope.

(** [try: c except requests.RequestException as e: return f"Error during API call: {e}"] *)
Definition except_RequestException (c : M string) : M string :=
  fun log =>
    match c log with
    | (Raised (RequestException detail), log') =>
        (Returned ("Error during API call: " ++ detail), log')
    | r => r
    end.

Definition TMDB_BASE_URL : string := "https://api.themoviedb.org/3".

(** The dict returned by both [except] clauses of [get_intent_from_llm]. *)
Definition unsupported_intent : json :=
  JObject [("function_name", JString "unsupported_request");
           ("parameters", JObject [])].

Definition unsupported_text : string :=
  "This request is not supported. Please ask about popular movies, movie details, or actor credits.".

(** ** [sorted(..., key=..., reverse=True)]

    The keys are computed first, for every element; the elements are then
    put in descending key order with [<] as the only comparison, elements
    with equal keys keeping their order.  The builtin is modelled by a
    stable insertion: where [<] is a total preorder on the keys (numbers:
    the case of the popularity scores) the stable arrangement is unique, so
    this is the list the builtin returns. *)

Fixpoint insert_desc (kx : json * json) (l : list (json * json))
  : outcome (list (json * json)) :=
  match l with
  | [] => Returned [kx]
  | ky :: l' =>
      (lt <- py_lt (fst kx) (fst ky) ;;
       if lt then (r <- insert_desc kx l' ;; oret (ky :: r))
       else oret (kx :: l))%outcome
  end.

Fixpoint sort_desc (l : list (json * json)) : outcome (list (json * json)) :=
  match l with
  | [] => Returned []
  | kx :: l' => (s <- sort_desc l' ;; insert_desc kx s)%outcome
  end.

Definition sorted_reverse (key : json -> outcome json) (v : json)
  : outcome (list json) :=
  (items <- py_iter v ;;
   keyed <- omap (fun x => k <- key x ;; oret (k, x)) items ;;
   s <- sort_desc keyed ;;
   oret (map snd s))%outcome.

(** [lambda x: x.get("popularity", 0)] *)
Definition popularity_key (x : json) : outcome json :=
  py_get x "popularity" (JInt 0).

(** ** Ranking by score: the specification side

    The arrangement that the specification asks of the credits: descending
    score, records of equal score in their original order.  [score] is the
    popularity as a number. *)

Section Ranking.

Variable A : Type.
Variable score : A -> Q.

Fixpoint insert_by (x : A) (l : list A) : list A :=
  match l with
  | [] => [x]
  | y :: l' =>
      if Qlt_bool (score x) (score y) then y :: insert_by x l' else x :: l
  end.

Fixpoint stable_desc (l : list A) : list A :=
  match l with
  | [] => []
  | x :: l' => insert_by x (stable_desc l')
  end.

(** Descending order: every element scores at least as much as each
    later one. *)
Definition descending (l : list A) : Prop :=
  StronglySorted (fun a b => (score b <= score a)%Q) l.

(** The elements whose score equals [q], in the order of [l]. *)
Definition with_score (q : Q) (l : list A) : list A :=
  filter (fun x => Qeq_bool (score x) q) l.

End Ranking.

Arguments insert_by {A} score x l.
Arguments stable_desc {A} score l.
Arguments descending {A} score l.
Arguments with_score {A} score q l.

(** The popularity of a record as the sort sees it: the number under
    "popularity", 0 when the record has no such field. *)
Definition popularity (x : json) : option Q :=
  match popularity_key x with
  | Returned k => num_val k
  | Raised _ => None
  end.

Definition popularity_score (x : json) : Q :=
  match popularity x with
  | Some q => q
  | None => 0%Q
  end.

(** The record has a number for a sort key. *)
Definition has_score (x : json) : bool :=
  match popularity x with
  | Some _ => true
  | None => false
  end.

(** The pair of a record's sort key and the record, as the sort holds it. *)
Definition keyed (x : json) : json * json :=
  (match popularity_key x with Returned k => k | Raised _ => JNull end, x).


(** The value of a field that is known to be present. *)
Definition field (x : json) (k : string) : json :=
  match py_getitem x k with
  | Returned v => v
  | Raised _ => JNull
  end.

Definition has_field (x : json) (k : string) : bool :=
  match py_getitem x k with
  | Returned _ => true
  | Raised _ => false
  end.

(** ** Test doubles

    A classifier that answers with the text it is given, a decoder for the
    few replies used below, and two catalogs: one with well-formed
    records, one whose records miss fields. *)

Module Stub.

Definition dq : string := String (ascii_of_nat 34) EmptyString.

Definition api_key : string := "key".

Definition prompt : string := "Answer with one JSON object." ++ nl ++ nl.

Definition messages_create (system user_text : string) : completion :=
  if String.eqb user_text "offline" then Unavailable else Text user_text.

(** [{"function_name": "get_popular_movies"}] *)
Definition popular_reply : string :=
  "{" ++ dq ++ "function_name" ++ dq ++ ": " ++ dq ++ "get_popular_movies" ++ dq ++ "}".

Definition json_loads (s : string) : option json :=
  if String.eqb s "[]" then Some (JArray [])
  else if String.eqb s "{}" then Some (JObject [])
  else if String.eqb s "null" then Some JNull
  else if String.eqb s "42" then Some (JInt 42)
  else if String.eqb s popular_reply
  then Some (JObject [("function_name", JString "get_popular_movies")])
  else None.

Definition repr (v : json) : string := "?".

Definition movie (title : string) (rating : Z) : json :=
  JObject [("id", JInt 1); ("title", JString title); ("vote_average", JInt rating)].

Definition popular_movies : list json :=
  [movie "Alpha" 8; movie "Bravo" 6; movie "Charlie" 9; movie "Delta" 7;
   movie "Echo" 5; movie "Foxtrot" 10; movie "Golf" 4].

Definition matrix_details : json :=
  JObject [("id", JInt 603); ("title", JString "The Matrix");
           ("overview", JString "A hacker learns the truth.");
           ("vote_average", JInt 8); ("release_date", JString "1999-03-31")].

Definition credit (title role : string) (pop : option Q) : json :=
  JObject (("title", JString title) :: ("character", JString role)
           :: match pop with
              | Some q => [("popularity", JFloat q)]
              | None => []
              end).

(** Seven credits; D and F have equal popularity, C and G have none. *)
Definition cast : list json :=
  [credit "A" "a" (Some (3 # 1)%Q); credit "B" "b" (Some (9 # 2)%Q);
   credit "C" "c" None; credit "D" "d" (Some (7 # 1)%Q);
   credit "E" "e" (Some (1 # 2)%Q); credit "F" "f" (Some (14 # 2)%Q);
   credit "G" "g" None].

Definition has_url (r : request) (path : string) : bool :=
  String.eqb (url r) (TMDB_BASE_URL ++ path).

Definition asks (r : request) (query : string) : bool :=
  match dict_lookup "query" (params r) with
  | Some q => py_eq_str q query
  | None => false
  end.

Definition requests_get (log : list request) (r : request) : reply :=
  if has_url r "/movie/popular" then
    Body (JObject [("page", JInt 1); ("results", JArray popular_movies)])
  else if has_url r "/search/movie" then
    if asks r "The Matrix" then
      Body (JObject [("results", JArray [JObject [("id", JInt 603)];
                                         JObject [("id", JInt 604)]])])
    else Body (JObject [("results", JArray [])])
  else if has_url r "/movie/603" then Body matrix_details
  else if has_url r "/search/person" then
    if asks r "Keanu Reeves" then
      Body (JObject [("results", JArray [JObject [("id", JInt 6384)]])])
    else Body (JObject [("results", JArray [])])
  else if has_url r "/person/6384/movie_credits" then
    Body (JObject [("cast", JArray cast)])
  else Failed "404 Client Error: Not Found".

(** A catalog whose records miss fields: a popular movie without a title,
    a movie search result without an id, a credit without a character. *)
Definition sparse_requests_get (log : list request) (r : request) : reply :=
  if has_url r "/movie/popular" then
    Body (JObject [("results", JArray [JObject [("vote_average", JInt 8)]])])
  else if has_url r "/search/movie" then
    Body (JObject [("results", JArray [JObject [("title", JString "Heat")]])])
  else if has_url r "/search/person" then
    Body (JObject [("results", JArray [JObject [("id", JInt 7)]])])
  else
    Body (JObject [("cast", JArray [JObject [("title", JString "Heat");
                                             ("popularity", JInt 3)]])]).

End Stub.

(** A classifier with the shape of the anthropic client: it raises on the
    line "offline" and otherwise gives a [Message] that holds the text it
    was given, with no [text] attribute. *)
Module Anthropic.

Definition messages_create (system user_text : string) : completion :=
  if String.eqb user_text "offline" then Unavailable else Message user_text.

(** A decoder for the replies used with it: [[]], [{}] and
    [{"function_name": "get_popular_movies"}]. *)
Definition json_loads (s : string) : option json := Stub.json_loads s.

End Anthropic.

(** ** The popularity of a record, read from the record itself *)

(** The value under "popularity", when the record is a dict that has one. *)
Definition record_popularity (x : json) : option json :=
  match x with
  | JObject kv => dict_lookup "popularity" kv
  | _ => None
  end.

(** The record is a dict whose "popularity", if any, is a number. *)
Definition numeric_popularity (x : json) : bool :=
  match x with
  | JObject kv =>
      match dict_lookup "popularity" kv with
      | Some v => match num_val v with Some _ => true | None => false end
      | None => true
      end
  | _ => false
  end.

(** The number under "popularity", 0 for a record that has no such field. *)
Definition field_score (x : json) : Q :=
  match record_popularity x with
  | Some v => match num_val v with Some q => q | None => 0%Q end
  | None => 0%Q
  end.

(** The values on which [name in v] can be evaluated: a dict, a list, a
    string. *)
Definition is_container (v : json) : bool :=
  match v with
  | JObject _ | JArray _ | JString _ => true
  | _ => false
  end.

(** The test of line 175: the line reads "quit" in some letter case. *)
Definition is_quit (line : string) : bool := String.eqb (lower line) "quit".

(** The lines typed before the first "quit". *)
Fixpoint before_quit (inputs : list string) : list string :=
  match inputs with
  | [] => []
  | line :: rest => if is_quit line then [] else line :: before_quit rest
  end.

(** ** Start-up: the module-level statements, lines 7-34

    The keys are read from the environment (after [load_dotenv]) and
    checked; the system prompt is then read from [system_prompt.txt]. *)

(** The exceptions that end the start-up. *)
Inductive startup_error : Type :=
| EnvironmentError (message : string)
| FileNotFoundError (message : string)
| RuntimeError (message : string).

(** What [open("system_prompt.txt")] followed by [f.read()] gives: no such
    file, another exception [e] (kept as [str(e)]), or the text. *)
Inductive prompt_file : Type :=
| NoSuchFile
| ReadFailed (detail : string)
| FileText (text : string).

(** The exceptions met inside the [try] of lines 24-30: FileNotFoundError,
    or any other one, the ValueError of line 30 among them, as [str(e)]. *)
Inductive prompt_exn : Type :=
| PromptNotFound
| PromptOther (detail : string).

Record settings : Type :=
  { tmdb_api_key : string; llm_api_key : string; system_prompt : string }.

(** [not v] for a value of [os.getenv]: unset, or the empty string. *)
Definition unset (v : option string) : bool :=
  match v with
  | None => true
  | Some s => String.eqb s EmptyString
  end.

(** Lines 25-30, the body of the [try]. *)
Definition read_system_prompt (f : prompt_file) : prompt_exn + string :=
  match f with
  | NoSuchFile => inl PromptNotFound
  | ReadFailed detail => inl (PromptOther detail)
  | FileText text =>
      let stripped := strip text in
      if negb (String.eqb stripped EmptyString) then inr (stripped ++ nl ++ nl)
      else inl (PromptOther "`system_prompt.txt` is empty")
  end.

(** Lines 23-34, with the two [except] clauses. *)
Definition load_system_prompt (f : prompt_file) : startup_error + string :=
  match read_system_prompt f with
  | inr prompt => inr prompt
  | inl PromptNotFound =>
      inl (FileNotFoundError "Create `system_prompt.txt` in the project root!")
  | inl (PromptOther detail) =>
      inl (RuntimeError ("Failed to load system prompt: " ++ detail))
  end.

(** Lines 7-34.  The construction of the client on line 17 is taken not
    to raise. *)
Definition startup (getenv : string -> option string) (f : prompt_file)
  : startup_error + settings :=
  match getenv "TMDB_API_KEY", getenv "LLM_API_KEY" with
  | Some tmdb, Some llm =>
      if unset (Some tmdb) || unset (Some llm)
      then inl (EnvironmentError "Set API keys in .env file: TMDB_API_KEY and LLM_API_KEY")
      else
        match load_system_prompt f with
        | inl e => inl e
        | inr prompt =>
            inr {| tmdb_api_key := tmdb; llm_api_key := llm; system_prompt := prompt |}
        end
  | _, _ => inl (EnvironmentError "Set API keys in .env file: TMDB_API_KEY and LLM_API_KEY")
  end.

(** ** Predicates used to state the properties *)

(** The exceptions that Python raises on a value of the wrong shape. *)
Definition local_error (e : exn) : bool :=
  match e with
  | KeyError _ | TypeError | AttributeError => true
  | _ => false
  end.

(** The outcome is a value, or one of the exceptions of [local_error]. *)
Definition raises_only_local {A : Type} (o : outcome A) : Prop :=
  match o with
  | Returned _ => True
  | Raised e => local_error e = true
  end.

Definition backtick : ascii := ascii_of_nat 96.

(** No character of [s] is a backtick. *)
Fixpoint no_backtick (s : string) : bool :=
  match s with
  | EmptyString => true
  | String c s' => negb (Ascii.eqb c backtick) && no_backtick s'
  end.

(** The number of backticks that [s] starts with. *)
Fixpoint leading_backticks (s : string) : nat :=
  match s with
  | EmptyString => 0
  | String c s' => if Ascii.eqb c backtick then S (leading_backticks s') else 0
  end.

(** Every character of [s] is white space. *)
Fixpoint all_space (s : string) : bool :=
  match s with
  | EmptyString => true
  | String c s' => is_space c && all_space s'
  end.

(** The id that the second call of a two-step handler asks for: the "id"
    of the first search result, when the search reply has one. *)
Definition first_result_id (r : reply) : option json :=
  match r with
  | Failed _ => None
  | Body search =>
      match py_get search "results" (JArray []) with
      | Returned results =>
          if py_truthy results then
            match py_first results with
            | Returned first =>
                match py_getitem first "id" with
                | Returned id => Some id
                | Raised _ => None
                end
            | Raised _ => None
            end
          else None
      | Raised _ => None
      end
  end.

(** Catalogs that fail: on every request, and on every request but the
    searches. *)
Module Offline.

Definition requests_get (log : list request) (r : request) : reply :=
  Failed "Connection refused".

Definition after_search (log : list request) (r : request) : reply :=
  if Stub.has_url r "/search/movie" || Stub.has_url r "/search/person"
  then Body (JObject [("results", JArray [JObject [("id", JInt 11)]])])
  else Failed "503 Server Error".

(** A catalog with nothing to list: no popular movie, and a person whose
    credits reply has no "cast". *)
Definition nothing_listed (log : list request) (r : request) : reply :=
  if Stub.has_url r "/movie/popular" then Body (JObject [("results", JArray [])])
  else if Stub.has_url r "/search/person"
       then Body (JObject [("results", JArray [JObject [("id", JInt 11)]])])
       else Body (JObject []).

End Offline.

(** A start-up environment for the concrete runs. *)
Module StubStart.

Definition getenv (name : string) : option string :=
  if String.eqb name "TMDB_API_KEY" then Some "tmdb-key"
  else if String.eqb name "LLM_API_KEY" then Some "llm-key"
  else None.

Definition prompt_text : string :=
  nl ++ "  Answer with one JSON object. " ++ nl.

End StubStart.

Section Program.

(** Configuration read at start-up. *)
Variable TMDB_API_KEY : string.
Variable SYSTEM_PROMPT : string.

(** The classifier: [client.messages.create] as a function of the system
    prompt and the user's text. *)
Variable messages_create : string -> string -> completion.

(** [json.loads]; [None] when it raises. *)
Variable json_loads : string -> option json.

(** The catalog service: the reply to a request, given the requests made
    before it. *)
Variable requests_get : list request -> request -> reply.

(** [repr] of a float, a list or a dict. *)
Variable py_repr : json -> string.

(** [str(v)], as an f-string formats [v]. *)
Definition py_str (v : json) : string :=
  match v with
  | JString s => s
  | JNull => "None"
  | JBool true => "True"
  | JBool false => "False"
  | JInt n => int_str n
  | _ => py_repr v
  end.

(** [requests.get], [raise_for_status] and [response.json()] in one step. *)
Definition get_json (r : request) : M json :=
  fun log =>
    (match requests_get log r with
     | Failed detail => Raised (RequestException detail)
     | Body j => Returned j
     end, (log ++ [r])%list).

Definition popular_request : request :=
  {| url := TMDB_BASE_URL ++ "/movie/popular";
     params := [("api_key", JString TMDB_API_KEY);
                ("language", JString "en-US");
                ("page", JInt 1)] |}.

Definition search_request (kind : string) (query : json) : request :=
  {| url := TMDB_BASE_URL ++ "/search/" ++ kind;
     params := [("api_key", JString TMDB_API_KEY);
                ("language", JString "en-US");
                ("query", query)] |}.

Definition details_request (movie_id : json) : request :=
  {| url := TMDB_BASE_URL ++ "/movie/" ++ py_str movie_id;
     params := [("api_key", JString TMDB_API_KEY);
                ("language", JString "en-US")] |}.

Definition credits_request (person_id : json) : request :=
  {| url := TMDB_BASE_URL ++ "/person/" ++ py_str person_id ++ "/movie_credits";
     params := [("api_key", JString TMDB_API_KEY);
                ("language", JString "en-US")] |}.

(** [f"- {movie['title']} (Rating: {movie['vote_average']})"] *)
Definition popular_line (movie : json) : outcome string :=
  (title <- py_getitem movie "title" ;;
   rating <- py_getitem movie "vote_average" ;;
   oret ("- " ++ py_str title ++ " (Rating: " ++ py_str rating ++ ")"))%outcome.

Definition handle_get_popular_movies : M string :=
  except_RequestException
    (response <- get_json popular_request ;;
     movies <- lift (py_get response "results" (JArray [])) ;;
     first_five <- lift (py_slice_to 5 movies) ;;
     items <- lift (py_iter first_five) ;;
     movie_list <- lift (omap popular_line items) ;;
     mret ("The top 5 popular movies now:" ++ nl ++ join nl movie_list))%catalog.

(** The four-line text that [handle_get_movie_details] returns. *)
Definition details_text (details : json) : outcome string :=
  (title <- py_getitem details "title" ;;
   overview <- py_getitem details "overview" ;;
   vote_average <- py_getitem details "vote_average" ;;
   release_date <- py_getitem details "release_date" ;;
   oret ("Details of '" ++ py_str title ++ "' movie:" ++ nl
         ++ "Overview: " ++ py_str overview ++ nl
         ++ "Vote average: " ++ py_str vote_average ++ "/10" ++ nl
         ++ "Release date: " ++ py_str release_date))%outcome.

Definition handle_get_movie_details (movie_name : json) : M string :=
  except_RequestException
    (search <- get_json (search_request "movie" movie_name) ;;
     results <- lift (py_get search "results" (JArray [])) ;;
     if negb (py_truthy results)
     then mret ("No movie titled '" ++ py_str movie_name ++ "'.")
     else
       first <- lift (py_first results) ;;
       movie_id <- lift (py_getitem first "id") ;;
       details <- get_json (details_request movie_id) ;;
       text <- lift (details_text details) ;;
       mret text)%catalog.

(** [f"- {movie['title']} (Character: {movie['character']})"] *)
Definition credit_line (movie : json) : outcome string :=
  (title <- py_getitem movie "title" ;;
   character <- py_getitem movie "character" ;;
   oret ("- " ++ py_str title ++ " (Character: " ++ py_str character ++ ")"))%outcome.

Definition handle_get_actor_credits (actor_name : json) : M string :=
  except_RequestException
    (search <- get_json (search_request "person" actor_name) ;;
     results <- lift (py_get search "results" (JArray [])) ;;
     if negb (py_truthy results)
     then mret ("No actor named '" ++ py_str actor_name ++ "'.")
     else
       first <- lift (py_first results) ;;
       person_id <- lift (py_getitem first "id") ;;
       response <- get_json (credits_request person_id) ;;
       credits <- lift (py_get response "cast" (JArray [])) ;;
       ranked <- lift (sorted_reverse popularity_key credits) ;;
       let top_movies := firstn 5 ranked in
       movie_list <- lift (omap credit_line top_movies) ;;
       mret ("'" ++ py_str actor_name ++ "' (ID: " ++ py_str person_id
             ++ ")'s top movies:" ++ nl ++ join nl movie_list))%catalog.

(** The text handed to [json.loads]. *)
Definition clean (text : string) : string :=
  strip (remove_all "```" (remove_all "```json" (strip text))).

Definition get_intent_from_llm (user_text : string) : outcome json :=
  let attempt : outcome json :=
    (text <- match messages_create SYSTEM_PROMPT user_text with
             | Unavailable => Raised LLMCallError
             | Text t => Returned t
             | Message _ => Raised AttributeError
             end ;;
     match json_loads (clean text) with
     | Some intent_data => Returned intent_data
     | None => Raised JSONDecodeError
     end)%outcome in
  match attempt with
  | Returned intent_data => Returned intent_data
  | Raised JSONDecodeError => Returned unsupported_intent
  | Raised _ => Returned unsupported_intent
  end.

(** Lines 181-182 of [main]: the two fields read from the intent. *)
Definition intent_fields (intent : json) : outcome (json * json) :=
  (function_name <- py_get intent "function_name" JNull ;;
   parameters <- py_get intent "parameters" (JObject []) ;;
   oret (function_name, parameters))%outcome.

(** Lines 187-206 of [main]: the chain of conditionals that selects the
    handler and gives [response_text]. *)
Definition main_dispatch (function_name parameters : json) : M string :=
  (if py_eq_str function_name "get_popular_movies" then
     handle_get_popular_movies
   else if py_eq_str function_name "get_movie_details" then
     present <- lift (py_contains "movie_name" parameters) ;;
     if (present : bool) then
       movie_name <- lift (py_getitem parameters "movie_name") ;;
       handle_get_movie_details movie_name
     else mret "LLM could not extract the movie name."
   else if py_eq_str function_name "get_actor_credits" then
     present <- lift (py_contains "actor_name" parameters) ;;
     if (present : bool) then
       actor_name <- lift (py_getitem parameters "actor_name") ;;
       handle_get_actor_credits actor_name
     else mret "LLM could not extract the actor name."
   else if py_eq_str function_name "unsupported_request" then
     mret unsupported_text
   else
     mret ("No function called '" ++ py_str function_name ++ "'."))%catalog.

(** Lines 181-206 of [main]: from the intent to [response_text]. *)
Definition main_respond (intent : json) : M string :=
  (fields <- lift (intent_fields intent) ;;
   main_dispatch (fst fields) (snd fields))%catalog.

(** One pass through the loop of [main] after the "quit" test: lines
    179-206.  The value is [response_text]. *)
Definition main_turn (user_input : string) : M string :=
  (intent <- lift (get_intent_from_llm user_input) ;;
   main_respond intent)%catalog.

(** The loop of [main] on the lines typed by the user.  The result lists
    the texts printed after "Assistant:", then how the loop ended:
    normally on "quit", or with the exception that left it ([input]
    raises EOFError when the lines run out). *)
Fixpoint main (inputs : list string) (log : list request)
  : list string * outcome unit * list request :=
  match inputs with
  | [] => ([], Raised EOFError, log)
  | user_input :: rest =>
      if String.eqb (lower user_input) "quit" then ([], Returned tt, log)
      else
        match main_turn user_input log with
        | (Returned response_text, log') =>
            match main rest log' with
            | (printed, ending, log'') => (response_text :: printed, ending, log'')
            end
        | (Raised e, log') => ([], Raised e, log')
        end
  end.


(** ** What the handlers print, for records that have the fields read *)

Definition rating_line (movie : json) : string :=
  "- " ++ py_str (field movie "title")
  ++ " (Rating: " ++ py_str (field movie "vote_average") ++ ")".

Definition character_line (movie : json) : string :=
  "- " ++ py_str (field movie "title")
  ++ " (Character: " ++ py_str (field movie "character") ++ ")".


(** ** The intent of a reply *)

Lemma get_intent_from_llm_returns (user_text : string) :
  exists intent, get_intent_from_llm user_text = Returned intent.
Proof.
  unfold get_intent_from_llm.
  destruct (messages_create SYSTEM_PROMPT user_text) as [|text|content]; simpl.
  - now exists unsupported_intent.
  - destruct (json_loads (clean text)) as [v|]; simpl; eauto.
  - now exists unsupported_intent.
Qed.

Lemma get_intent_from_llm_decoded (user_text text : string) (v : json) :
  messages_create SYSTEM_PROMPT user_text = Text text ->
  json_loads (clean text) = Some v ->
  get_intent_from_llm user_text = Returned v.
Proof.
  intros Hreply Hloads. unfold get_intent_from_llm.
  rewrite Hreply; simpl. now rewrite Hloads.
Qed.

Lemma get_intent_from_llm_call_failure (user_text : string) :
  messages_create SYSTEM_PROMPT user_text = Unavailable ->
  get_intent_from_llm user_text = Returned unsupported_intent.
Proof.
  intros Hreply. unfold get_intent_from_llm. now rewrite Hreply.
Qed.

Lemma get_intent_from_llm_malformed (user_text text : string) :
  messages_create SYSTEM_PROMPT user_text = Text text ->
  json_loads (clean text) = None ->
  get_intent_from_llm user_text = Returned unsupported_intent.
Proof.
  intros Hreply Hloads. unfold get_intent_from_llm.
  rewrite Hreply; simpl. now rewrite Hloads.
Qed.

Lemma intent_fields_unsupported :
  intent_fields unsupported_intent
  = Returned (JString "unsupported_request", JObject []).
Proof. reflexivity. Qed.

Lemma intent_fields_not_dict (v : json) :
  is_dict v = false -> intent_fields v = Raised AttributeError.
Proof. destruct v; simpl; intros H; try reflexivity; discriminate. Qed.

Lemma main_turn_decoded (user_input text : string) (v : json) (log : list request) :
  messages_create SYSTEM_PROMPT user_input = Text text ->
  json_loads (clean text) = Some v ->
  main_turn user_input log = main_respond v log.
Proof.
  intros Hreply Hloads. unfold main_turn, mbind, lift.
  now rewrite (get_intent_from_llm_decoded _ _ _ Hreply Hloads).
Qed.

(** On a failed call and on a reply that does not decode, the turn answers
    with the "not supported" sentence and issues no catalog call. *)
Lemma main_turn_fallback (user_input : string) (log : list request) :
  get_intent_from_llm user_input = Returned unsupported_intent ->
  main_turn user_input log = (Returned unsupported_text, log).
Proof.
  intros Hintent. unfold main_turn, mbind, lift. now rewrite Hintent.
Qed.

(** Parameters that are no container at all, such as null, make the
    membership test of the dispatch raise. *)
Lemma main_dispatch_null_parameters (log : list request) :
  main_dispatch (JString "get_movie_details") JNull log = (Raised TypeError, log)
  /\ main_dispatch (JString "get_actor_credits") JNull log = (Raised TypeError, log).
Proof. split; reflexivity. Qed.

(** A response object with a [text] attribute, as a test double has one:
    a text that decodes to anything but an object (a list, a string, a
    number, null) is returned as it is by [get_intent_from_llm], and the
    field extraction in [main] then raises AttributeError.  The anthropic
    [Message] has no such attribute, so that this path is not taken with
    the client of line 17. *)
Lemma text_reply_non_object_raises
  (user_input text : string) (v : json) (rest : list string) (log : list request) :
  messages_create SYSTEM_PROMPT user_input = Text text ->
  json_loads (clean text) = Some v ->
  is_dict v = false ->
  String.eqb (lower user_input) "quit" = false ->
  main_turn user_input log = (Raised AttributeError, log)
  /\ main (user_input :: rest) log = ([], Raised AttributeError, log).
Proof.
  intros Hreply Hloads Hdict Hquit.
  assert (Hturn : main_turn user_input log = (Raised AttributeError, log)).
  { rewrite (main_turn_decoded _ _ _ _ Hreply Hloads).
    unfold main_respond, mbind, lift.
    now rewrite (intent_fields_not_dict _ Hdict). }
  split; [exact Hturn|].
  simpl. now rewrite Hquit, Hturn.
Qed.

(** With the same kind of response object, a text that decodes to an
    object gives the value under "function_name" for an action, and None
    when the object has no such field. *)
Lemma text_reply_action_is_function_name_or_None
  (user_input text : string) (kv : list (string * json)) (log : list request) :
  messages_create SYSTEM_PROMPT user_input = Text text ->
  json_loads (clean text) = Some (JObject kv) ->
  exists action parameters,
    (intent <- get_intent_from_llm user_input ;; intent_fields intent)%outcome
    = Returned (action, parameters)
    /\ (action <> JNull <->
        exists v, dict_lookup "function_name" kv = Some v /\ v <> JNull)
    /\ (dict_lookup "function_name" kv = None ->
        action = JNull
        /\ main_turn user_input log
           = (Returned "No function called 'None'.", log)).
Proof.
  intros Hreply Hloads.
  rewrite (get_intent_from_llm_decoded _ _ _ Hreply Hloads).
  rewrite (main_turn_decoded _ _ _ _ Hreply Hloads).
  unfold main_respond, mbind, lift. simpl.
  eexists; eexists; split; [reflexivity|].
  destruct (dict_lookup "function_name" kv) as [v|] eqn:Hname.
  - split; [|discriminate]. split.
    + intros Hv. exists v. now split.
    + intros [w [Hw Hnull]]. injection Hw as <-. exact Hnull.
  - split.
    + split; [now intros H | now intros [w [Hw _]]].
    + intros _. split; reflexivity.
Qed.

(** The response has no [text] attribute, or there is no response: line
    152 raises inside the [try], or line 143 did, and the [except] clause
    of lines 163-165 returns the sentinel dict. *)
Lemma get_intent_from_llm_no_text (user_text : string) :
  has_text (messages_create SYSTEM_PROMPT user_text) = false ->
  get_intent_from_llm user_text = Returned unsupported_intent.
Proof.
  intros Hno. unfold get_intent_from_llm.
  now destruct (messages_create SYSTEM_PROMPT user_text) as [|text|content].
Qed.

(** C1.  With the client of line 17, whose responses have no [text]
    attribute, the intent-parsing step never raises, whatever the reply
    holds (malformed JSON, a JSON list or string, an object) and also when
    the call itself fails: the intent is exactly
    [{"function_name": "unsupported_request", "parameters": {}}], the two
    fields read from it are "unsupported_request" and the empty mapping,
    and the turn answers with the "not supported" sentence without a
    catalog request. *)
Theorem C1_every_reply_degrades_to_sentinel
  (user_input : string) (log : list request) :
  has_text (messages_create SYSTEM_PROMPT user_input) = false ->
  get_intent_from_llm user_input = Returned unsupported_intent
  /\ (intent <- get_intent_from_llm user_input ;; intent_fields intent)%outcome
     = Returned (JString "unsupported_request", JObject [])
  /\ main_turn user_input log = (Returned unsupported_text, log).
Proof.
  intros Hno. pose proof (get_intent_from_llm_no_text _ Hno) as Hintent.
  split; [exact Hintent|]. split.
  - now rewrite Hintent.
  - now apply main_turn_fallback.
Qed.

(** C2.  With the client of line 17, the action read from the intent is
    never None: whatever the reply holds, and so also when it is a JSON
    object without "function_name", the intent is accepted by the field
    extraction and its action is the string "unsupported_request". *)
Theorem C2_action_is_never_null
  (user_input : string) :
  has_text (messages_create SYSTEM_PROMPT user_input) = false ->
  exists action parameters,
    (intent <- get_intent_from_llm user_input ;; intent_fields intent)%outcome
    = Returned (action, parameters)
    /\ action = JString "unsupported_request"
    /\ action <> JNull.
Proof.
  intros Hno. rewrite (get_intent_from_llm_no_text _ Hno).
  exists (JString "unsupported_request"), (JObject []).
  split; [reflexivity|]. split; [reflexivity|discriminate].
Qed.

(** C3, as the code has it.  An action that is none of the three
    registered identifiers selects no handler and issues no catalog call.
    The text is the fixed "not supported" sentence for the sentinel
    "unsupported_request" and "No function called '<action>'." for any
    other action, and these two texts are never the same. *)
Theorem C3_unrecognized_action_texts
  (function_name parameters : json) (log : list request) :
  py_eq_str function_name "get_popular_movies" = false ->
  py_eq_str function_name "get_movie_details" = false ->
  py_eq_str function_name "get_actor_credits" = false ->
  main_dispatch function_name parameters log
  = (Returned (if py_eq_str function_name "unsupported_request"
               then unsupported_text
               else "No function called '" ++ py_str function_name ++ "'."),
     log)
  /\ "No function called '" ++ py_str function_name ++ "'." <> unsupported_text.
Proof.
  intros Hpop Hdet Hact. split.
  - unfold main_dispatch. rewrite Hpop, Hdet, Hact.
    now destruct (py_eq_str function_name "unsupported_request").
  - unfold unsupported_text. simpl. discriminate.
Qed.

(** An intent that names [get_movie_details] and whose parameters are a
    mapping without "movie_name", or that names [get_actor_credits] and
    has no "actor_name" there (an intent without "parameters" counts as
    the empty mapping): the response is the fixed "could not extract"
    text, the handler is not entered and the list of catalog requests is
    as it was. *)
Lemma missing_parameter_issues_no_call
  (intent : json) (name key text : string) (kv : list (string * json))
  (log : list request) :
  (name, key, text)
    = ("get_movie_details", "movie_name", "LLM could not extract the movie name.")
  \/ (name, key, text)
    = ("get_actor_credits", "actor_name", "LLM could not extract the actor name.") ->
  py_get intent "function_name" JNull = Returned (JString name) ->
  py_get intent "parameters" (JObject []) = Returned (JObject kv) ->
  dict_lookup key kv = None ->
  main_respond intent log = (Returned text, log).
Proof.
  intros Hcase Hname Hparams Habsent.
  unfold main_respond, intent_fields, mbind, lift.
  rewrite Hname, Hparams. simpl.
  destruct Hcase as [Hc | Hc]; injection Hc as -> -> ->;
    unfold main_dispatch, mbind, lift; simpl; now rewrite Habsent.
Qed.

(** C5, where the code departs from the claim.  When the intent names a
    two-step handler and its "parameters" is null, a number or a boolean,
    the required name is absent, but the membership test of line 191 (or
    197) raises TypeError: no "could not extract" text is produced and the
    exception leaves the dispatch.  No catalog request is made. *)
Theorem C5_unusable_parameters_raise
  (intent parameters : json) (movie : bool) (log : list request) :
  py_get intent "function_name" JNull
  = Returned (JString (if movie then "get_movie_details" else "get_actor_credits")) ->
  py_get intent "parameters" (JObject []) = Returned parameters ->
  is_container parameters = false ->
  main_respond intent log = (Raised TypeError, log).
Proof.
  intros Hname Hparams Hshape.
  unfold main_respond, intent_fields, mbind, lift.
  rewrite Hname, Hparams. simpl.
  destruct movie; unfold main_dispatch, mbind, lift; simpl;
    destruct parameters; try discriminate Hshape; reflexivity.
Qed.

(** ** The handlers *)

Lemma omap_returned {A B : Type} (f : A -> outcome B) (g : A -> B) (l : list A) :
  Forall (fun x => f x = Returned (g x)) l ->
  omap f l = Returned (map g l).
Proof.
  induction 1 as [|x l Hx _ IH]; simpl; [reflexivity|].
  now rewrite Hx, IH.
Qed.

Lemma has_field_getitem (x : json) (k : string) :
  has_field x k = true -> py_getitem x k = Returned (field x k).
Proof.
  unfold has_field, field. now destruct (py_getitem x k).
Qed.

Lemma popular_line_returned (movie : json) :
  has_field movie "title" && has_field movie "vote_average" = true ->
  popular_line movie = Returned (rating_line movie).
Proof.
  intros H. apply andb_prop in H as [Ht Hr].
  unfold popular_line, rating_line.
  now rewrite (has_field_getitem _ _ Ht), (has_field_getitem _ _ Hr).
Qed.

Lemma credit_line_returned (movie : json) :
  has_field movie "title" && has_field movie "character" = true ->
  credit_line movie = Returned (character_line movie).
Proof.
  intros H. apply andb_prop in H as [Ht Hc].
  unfold credit_line, character_line.
  now rewrite (has_field_getitem _ _ Ht), (has_field_getitem _ _ Hc).
Qed.

Lemma forallb_Forall_eq {A B : Type} (p : A -> bool) (f : A -> outcome B)
  (g : A -> B) (l : list A) :
  (forall x, p x = true -> f x = Returned (g x)) ->
  forallb p l = true ->
  Forall (fun x => f x = Returned (g x)) l.
Proof.
  intros Hp Hall. apply Forall_forall. intros x Hx.
  apply Hp. rewrite forallb_forall in Hall. now apply Hall.
Qed.

Lemma nth_error_firstn_below {A : Type} (n i : nat) (l : list A) :
  i < n -> nth_error (firstn n l) i = nth_error l i.
Proof.
  revert i l. induction n as [|n IH]; intros i l Hi; [lia|].
  destruct l as [|x l]; [reflexivity|].
  destruct i as [|i]; [reflexivity|]. simpl. apply IH. lia.
Qed.

Lemma In_firstn {A : Type} (n : nat) (x : A) (l : list A) :
  In x (firstn n l) -> In x l.
Proof.
  intros H. rewrite <- (firstn_skipn n l). apply in_or_app. now left.
Qed.

Lemma main_stops_when_turn_raises
  (user_input : string) (rest : list string) (log log' : list request) (e : exn) :
  String.eqb (lower user_input) "quit" = false ->
  main_turn user_input log = (Raised e, log') ->
  main (user_input :: rest) log = ([], Raised e, log').
Proof. intros Hquit Hturn. simpl. now rewrite Hquit, Hturn. Qed.

(** C6.  When the popular-movies call succeeds with a list under
    "results" whose first five records have a title and a vote average,
    the handler makes that one call and returns the heading followed by
    one line "- title (Rating: X)" for each of the first five records:
    all of them when there are fewer than five, the i-th line from the
    i-th record, in the order of the catalog. *)
Theorem C6_popular_first_five_in_order
  (log : list request) (body : json) (movies : list json) :
  requests_get log popular_request = Body body ->
  py_get body "results" (JArray []) = Returned (JArray movies) ->
  forallb (fun m => has_field m "title" && has_field m "vote_average")
          (firstn 5 movies) = true ->
  handle_get_popular_movies log
  = (Returned ("The top 5 popular movies now:" ++ nl
               ++ join nl (map rating_line (firstn 5 movies))),
     (log ++ [popular_request])%list)
  /\ List.length (firstn 5 movies) = Nat.min 5 (List.length movies)
  /\ (forall i, i < 5 -> nth_error (firstn 5 movies) i = nth_error movies i).
Proof.
  intros Hreply Hresults Hfields. split; [|split].
  - unfold handle_get_popular_movies, except_RequestException, mbind, get_json, lift, mret.
    rewrite Hreply, Hresults.
    cbn [py_slice_to py_iter].
    rewrite (omap_returned popular_line rating_line).
    + reflexivity.
    + eapply forallb_Forall_eq; [|exact Hfields].
      intros x Hx. now apply popular_line_returned.
  - apply length_firstn.
  - intros i Hi. now apply nth_error_firstn_below.
Qed.

(** C7.  When the movie search returns a non-empty list, the second call
    asks for the movie whose id is the "id" of the first result; when
    that call gives a record with the four fields, the handler returns
    its title, overview, vote average followed by "/10", and release
    date, having made exactly these two calls. *)
Theorem C7_details_of_first_result
  (movie_name : json) (log : list request)
  (search first movie_id details : json) (rest : list json) :
  requests_get log (search_request "movie" movie_name) = Body search ->
  py_get search "results" (JArray []) = Returned (JArray (first :: rest)) ->
  py_getitem first "id" = Returned movie_id ->
  requests_get (log ++ [search_request "movie" movie_name])%list
               (details_request movie_id) = Body details ->
  forallb (has_field details)
          ["title"; "overview"; "vote_average"; "release_date"] = true ->
  handle_get_movie_details movie_name log
  = (Returned ("Details of '" ++ py_str (field details "title") ++ "' movie:" ++ nl
               ++ "Overview: " ++ py_str (field details "overview") ++ nl
               ++ "Vote average: " ++ py_str (field details "vote_average") ++ "/10" ++ nl
               ++ "Release date: " ++ py_str (field details "release_date")),
     (log ++ [search_request "movie" movie_name; details_request movie_id])%list)
  /\ url (details_request movie_id) = TMDB_BASE_URL ++ "/movie/" ++ py_str movie_id.
Proof.
  intros Hsearch Hresults Hid Hdetails Hfields. split; [|reflexivity].
  cbn [forallb] in Hfields.
  repeat (apply andb_prop in Hfields as [? Hfields]).
  unfold handle_get_movie_details, except_RequestException, mbind, get_json, lift, mret.
  rewrite Hsearch, Hresults.
  cbn [py_truthy negb py_first].
  rewrite Hid, Hdetails.
  unfold details_text.
  rewrite !has_field_getitem by assumption.
  cbn [obind oret].
  now rewrite <- app_assoc.
Qed.

(** C9.  When the search call succeeds with an empty list of results (or
    any value that Python takes as false), each of the two-step handlers
    returns its "not found" text, which carries the query, and has made
    one call only, the search: no details are fetched by
    [handle_get_movie_details], no credits by [handle_get_actor_credits]. *)
Theorem C9_no_result_no_second_call
  (movie : bool) (query search results : json) (log : list request) :
  requests_get log (search_request (if movie then "movie" else "person") query)
  = Body search ->
  py_get search "results" (JArray []) = Returned results ->
  py_truthy results = false ->
  (if movie then handle_get_movie_details query log
   else handle_get_actor_credits query log)
  = (Returned (if movie then "No movie titled '" ++ py_str query ++ "'."
               else "No actor named '" ++ py_str query ++ "'."),
     (log ++ [search_request (if movie then "movie" else "person") query])%list).
Proof.
  intros Hsearch Hresults Hempty.
  destruct movie;
    unfold handle_get_movie_details, handle_get_actor_credits,
      except_RequestException, mbind, get_json, lift, mret;
    now rewrite Hsearch, Hresults, Hempty.
Qed.

(** ** Ranking *)

Lemma Qlt_bool_true (p q : Q) : Qlt_bool p q = true -> (p < q)%Q.
Proof.
  unfold Qlt_bool. intros H. apply negb_true_iff in H.
  apply Qnot_le_lt. intros Hle. apply Qle_bool_iff in Hle. congruence.
Qed.

Lemma Qlt_bool_false (p q : Q) : Qlt_bool p q = false -> (q <= p)%Q.
Proof.
  unfold Qlt_bool. intros H. apply negb_false_iff in H.
  now apply Qle_bool_iff.
Qed.

Section RankingFacts.

Variable A : Type.
Variable score : A -> Q.

Lemma insert_by_perm (x : A) (l : list A) :
  Permutation (insert_by score x l) (x :: l).
Proof.
  induction l as [|y l IH]; simpl; [reflexivity|].
  destruct (Qlt_bool (score x) (score y)); [|reflexivity].
  rewrite IH. apply perm_swap.
Qed.

Lemma stable_desc_perm (l : list A) : Permutation (stable_desc score l) l.
Proof.
  induction l as [|x l IH]; simpl; [reflexivity|].
  rewrite insert_by_perm. now constructor.
Qed.

Lemma insert_by_descending (x : A) (l : list A) :
  descending score l -> descending score (insert_by score x l).
Proof.
  unfold descending.
  induction 1 as [|y l Hsorted IH Hall]; simpl.
  - repeat constructor.
  - destruct (Qlt_bool (score x) (score y)) eqn:Hlt.
    + constructor; [exact IH|].
      apply (Permutation_Forall (Permutation_sym (insert_by_perm x l))).
      constructor; [|exact Hall].
      apply Qlt_le_weak. now apply Qlt_bool_true.
    + apply Qlt_bool_false in Hlt.
      constructor; [now constructor|].
      constructor; [exact Hlt|].
      eapply Forall_impl; [|exact Hall].
      intros b Hb. simpl in Hb. now apply Qle_trans with (score y).
Qed.

Lemma stable_desc_descending (l : list A) : descending score (stable_desc score l).
Proof.
  induction l as [|x l IH]; simpl.
  - constructor.
  - now apply insert_by_descending.
Qed.

(** Insertion moves [x] past elements of a strictly greater score only:
    a selection that never holds two elements of different scores sees
    [x] where it was. *)
Lemma insert_by_filter (p : A -> bool) (x : A) (l : list A) :
  (forall y, In y l -> p x = true -> p y = true -> (score x == score y)%Q) ->
  filter p (insert_by score x l) = filter p (x :: l).
Proof.
  induction l as [|y l IH]; intros Hsame; simpl; [reflexivity|].
  destruct (Qlt_bool (score x) (score y)) eqn:Hlt; [|reflexivity].
  simpl. rewrite IH by (intros z Hz; apply Hsame; now right). simpl.
  destruct (p x) eqn:Hx, (p y) eqn:Hy; try reflexivity.
  apply Qlt_bool_true in Hlt.
  assert (Heq : (score x == score y)%Q) by (apply Hsame; auto; now left).
  rewrite Heq in Hlt. now apply Qlt_irrefl in Hlt.
Qed.

Lemma stable_desc_filter (p : A -> bool) (l : list A) :
  (forall a b, In a l -> In b l -> p a = true -> p b = true ->
               (score a == score b)%Q) ->
  filter p (stable_desc score l) = filter p l.
Proof.
  induction l as [|x l IH]; intros Hsame; simpl; [reflexivity|].
  rewrite insert_by_filter.
  - simpl. rewrite IH; [reflexivity|].
    intros a b Ha Hb. apply Hsame; now right.
  - intros y Hy. apply Hsame; [now left|right].
    now apply (Permutation_in _ (stable_desc_perm l)).
Qed.

(** Stability: the elements of any one score keep their order. *)
Lemma stable_desc_with_score (q : Q) (l : list A) :
  with_score score q (stable_desc score l) = with_score score q l.
Proof.
  unfold with_score. apply stable_desc_filter.
  intros a b _ _ Ha Hb.
  apply Qeq_bool_iff in Ha. apply Qeq_bool_iff in Hb.
  now rewrite Ha, Hb.
Qed.


(** The three properties fix the arrangement: any stable sort gives the
    same list. *)
Lemma stable_arrangement_unique (r1 r2 : list A) :
  Permutation r1 r2 -> descending score r1 -> descending score r2 ->
  (forall q, with_score score q r1 = with_score score q r2) ->
  r1 = r2.
Proof.
  revert r2. induction r1 as [|a r1 IH]; intros r2 Hperm H1 H2 Hstable.
  - apply Permutation_nil in Hperm. now subst.
  - destruct r2 as [|b r2].
    { apply Permutation_sym, Permutation_nil in Hperm. discriminate. }
    unfold descending in H1, H2.
    apply StronglySorted_inv in H1 as [H1 Ha].
    apply StronglySorted_inv in H2 as [H2 Hb].
    assert (Hab : (score a == score b)%Q).
    { apply Qle_antisym.
      - assert (Hin : In a (b :: r2)) by (apply (Permutation_in _ Hperm); now left).
        destruct Hin as [<-|Hin]; [apply Qle_refl|].
        rewrite Forall_forall in Hb. now apply Hb.
      - assert (Hin : In b (a :: r1))
          by (apply (Permutation_in _ (Permutation_sym Hperm)); now left).
        destruct Hin as [<-|Hin]; [apply Qle_refl|].
        rewrite Forall_forall in Ha. now apply Ha. }
    assert (Heq : a = b).
    { specialize (Hstable (score a)). unfold with_score in Hstable.
      simpl in Hstable.
      assert (Haa : Qeq_bool (score a) (score a) = true)
        by (apply Qeq_bool_iff; reflexivity).
      assert (Hba : Qeq_bool (score b) (score a) = true)
        by (apply Qeq_bool_iff; now symmetry).
      rewrite Haa, Hba in Hstable. congruence. }
    subst b. f_equal. apply IH; try assumption.
    + now apply Permutation_cons_inv with a.
    + intros q. specialize (Hstable q). unfold with_score in *.
      simpl in Hstable.
      destruct (Qeq_bool (score a) q); congruence.
Qed.

End RankingFacts.

(** ** The builtin sort on numeric keys *)

Lemma py_lt_numbers (a b : json) (p q : Q) :
  num_val a = Some p -> num_val b = Some q ->
  py_lt a b = Returned (Qlt_bool p q).
Proof.
  intros Ha Hb.
  destruct a; try discriminate Ha; destruct b; try discriminate Hb;
    simpl in *; congruence.
Qed.

Lemma has_score_key (x : json) :
  has_score x = true ->
  popularity_key x = Returned (fst (keyed x))
  /\ num_val (fst (keyed x)) = Some (popularity_score x).
Proof.
  unfold has_score, popularity_score, popularity, keyed.
  destruct (popularity_key x) as [k|e]; simpl; [|discriminate].
  destruct (num_val k); [now split | discriminate].
Qed.

Lemma insert_desc_refines (x : json) (s : list json) :
  has_score x = true -> Forall (fun y => has_score y = true) s ->
  insert_desc (keyed x) (map keyed s)
  = Returned (map keyed (insert_by popularity_score x s)).
Proof.
  intros Hx. induction 1 as [|y s Hy _ IH]; cbn [map insert_desc insert_by];
    [reflexivity|].
  destruct (has_score_key x Hx) as [_ Hkx].
  destruct (has_score_key y Hy) as [_ Hky].
  rewrite (py_lt_numbers _ _ _ _ Hkx Hky). cbn [obind].
  destruct (Qlt_bool (popularity_score x) (popularity_score y)); [|reflexivity].
  now rewrite IH.
Qed.

Lemma sort_desc_refines (l : list json) :
  Forall (fun y => has_score y = true) l ->
  sort_desc (map keyed l) = Returned (map keyed (stable_desc popularity_score l)).
Proof.
  induction 1 as [|x l Hx Hl IH]; cbn [map sort_desc stable_desc]; [reflexivity|].
  rewrite IH. cbn [obind]. apply insert_desc_refines; [exact Hx|].
  now apply (Permutation_Forall (Permutation_sym (stable_desc_perm _ _ l))).
Qed.

Lemma map_snd_keyed (l : list json) : map snd (map keyed l) = l.
Proof. rewrite map_map. simpl. apply map_id. Qed.

(** On records whose sort keys are numbers, [sorted] with
    [popularity_key] and [reverse=True] returns the stable descending
    arrangement by popularity. *)
Lemma sorted_reverse_refines (cast : list json) :
  forallb has_score cast = true ->
  sorted_reverse popularity_key (JArray cast)
  = Returned (stable_desc popularity_score cast).
Proof.
  intros Hall.
  assert (HF : Forall (fun y => has_score y = true) cast).
  { apply Forall_forall. intros x Hx.
    rewrite forallb_forall in Hall. now apply Hall. }
  unfold sorted_reverse. cbn [py_iter obind].
  rewrite (omap_returned _ keyed).
  - cbn [obind]. rewrite (sort_desc_refines _ HF). cbn [obind oret].
    now rewrite map_snd_keyed.
  - eapply Forall_impl; [|exact HF].
    intros x Hx. simpl in Hx. destruct (has_score_key x Hx) as [Hk _].
    rewrite Hk. reflexivity.
Qed.



(** C4, where the code departs from the claim.  The handlers catch
    [requests.RequestException] and nothing else.  When the first record
    of a successful popular-movies reply has no "title", the subscript
    raises KeyError inside [handle_get_popular_movies]; the exception
    crosses the handler and the dispatch in [main], which has no
    [try] around its body. *)
Theorem C4_missing_title_escapes
  (log : list request) (body parameters : json)
  (fields : list (string * json)) (rest : list json) :
  requests_get log popular_request = Body body ->
  py_get body "results" (JArray []) = Returned (JArray (JObject fields :: rest)) ->
  dict_lookup "title" fields = None ->
  handle_get_popular_movies log
  = (Raised (KeyError (JString "title")), (log ++ [popular_request])%list)
  /\ main_dispatch (JString "get_popular_movies") parameters log
     = (Raised (KeyError (JString "title")), (log ++ [popular_request])%list).
Proof.
  intros Hreply Hresults Htitle.
  assert (H : handle_get_popular_movies log
              = (Raised (KeyError (JString "title")), (log ++ [popular_request])%list)).
  { unfold handle_get_popular_movies, except_RequestException, mbind, get_json, lift, mret.
    rewrite Hreply, Hresults.
    cbn [py_slice_to firstn py_iter omap]. unfold popular_line at 1.
    cbn [py_getitem]. now rewrite Htitle. }
  split; [exact H|]. exact H.
Qed.

(** The same for the two-step handlers: a first search result without an
    "id", and a credit without a "character". *)
Lemma movie_details_missing_id_escapes
  (movie_name search : json) (log : list request)
  (fields : list (string * json)) (rest : list json) :
  requests_get log (search_request "movie" movie_name) = Body search ->
  py_get search "results" (JArray []) = Returned (JArray (JObject fields :: rest)) ->
  dict_lookup "id" fields = None ->
  handle_get_movie_details movie_name log
  = (Raised (KeyError (JString "id")),
     (log ++ [search_request "movie" movie_name])%list).
Proof.
  intros Hsearch Hresults Hid.
  unfold handle_get_movie_details, except_RequestException, mbind, get_json, lift, mret.
  rewrite Hsearch, Hresults.
  cbn [py_truthy negb py_first py_getitem].
  now rewrite Hid.
Qed.

Lemma actor_credits_missing_character_escapes
  (actor_name search first person_id response title : json) (log : list request)
  (fields : list (string * json)) (rest : list json) :
  requests_get log (search_request "person" actor_name) = Body search ->
  py_get search "results" (JArray []) = Returned (JArray (first :: rest)) ->
  py_getitem first "id" = Returned person_id ->
  requests_get (log ++ [search_request "person" actor_name])%list
               (credits_request person_id) = Body response ->
  py_get response "cast" (JArray []) = Returned (JArray [JObject fields]) ->
  dict_lookup "title" fields = Some title ->
  dict_lookup "character" fields = None ->
  handle_get_actor_credits actor_name log
  = (Raised (KeyError (JString "character")),
     (log ++ [search_request "person" actor_name; credits_request person_id])%list).
Proof.
  intros Hsearch Hresults Hid Hcredits Hcast Htitle Hchar.
  unfold handle_get_actor_credits, except_RequestException, mbind, get_json, lift, mret.
  rewrite Hsearch, Hresults.
  cbn [py_truthy negb py_first].
  rewrite Hid, Hcredits, Hcast.
  unfold sorted_reverse.
  cbn [py_iter obind omap oret sort_desc insert_desc map snd firstn].
  unfold popularity_key, credit_line. cbn [py_get py_getitem obind oret].
  cbn [sort_desc insert_desc obind oret map snd firstn omap].
  unfold credit_line. cbn [py_getitem].
  rewrite Htitle, Hchar. cbn [obind]. now rewrite <- app_assoc.
Qed.

(** C8.  When the person search returns a non-empty list and the credits
    call gives a "cast" list of records with a numeric (or no)
    popularity, a title and a character, the handler returns the heading
    and one line "- title (Character: role)" for each of the first five
    records of the ranked list (all of them when there are fewer than
    five).  The ranked list holds the records of the cast, in descending
    popularity, and the records of any one popularity are in their
    original order. *)
Theorem C8_credits_ranked_stably
  (actor_name : json) (log : list request)
  (search first person_id response : json) (rest cast : list json) :
  requests_get log (search_request "person" actor_name) = Body search ->
  py_get search "results" (JArray []) = Returned (JArray (first :: rest)) ->
  py_getitem first "id" = Returned person_id ->
  requests_get (log ++ [search_request "person" actor_name])%list
               (credits_request person_id) = Body response ->
  py_get response "cast" (JArray []) = Returned (JArray cast) ->
  forallb has_score cast = true ->
  forallb (fun m => has_field m "title" && has_field m "character") cast = true ->
  let ranked := stable_desc popularity_score cast in
  handle_get_actor_credits actor_name log
  = (Returned ("'" ++ py_str actor_name ++ "' (ID: " ++ py_str person_id
               ++ ")'s top movies:" ++ nl
               ++ join nl (map character_line (firstn 5 ranked))),
     (log ++ [search_request "person" actor_name; credits_request person_id])%list)
  /\ Permutation ranked cast
  /\ descending popularity_score ranked
  /\ (forall q, with_score popularity_score q ranked
                = with_score popularity_score q cast)
  /\ List.length (firstn 5 ranked) = Nat.min 5 (List.length cast).
Proof.
  intros Hsearch Hresults Hid Hcredits Hcast Hscores Hfields ranked.
  assert (Hperm : Permutation ranked cast) by apply stable_desc_perm.
  split; [|split; [exact Hperm|split; [apply stable_desc_descending|split]]].
  - unfold handle_get_actor_credits, except_RequestException, mbind, get_json, lift, mret.
    rewrite Hsearch, Hresults.
    cbn [py_truthy negb py_first].
    rewrite Hid, Hcredits, Hcast.
    rewrite (sorted_reverse_refines _ Hscores).
    rewrite (omap_returned credit_line character_line).
    + now rewrite <- app_assoc.
    + apply Forall_forall. intros x Hx.
      apply credit_line_returned.
      rewrite forallb_forall in Hfields. apply Hfields.
      apply (Permutation_in _ Hperm).
      eapply In_firstn; exact Hx.
  - intros q. apply stable_desc_with_score.
  - rewrite length_firstn. now rewrite (Permutation_length Hperm).
Qed.

(** The key that line 129 computes is the number under "popularity", and
    0 for a record without the field. *)
Lemma numeric_popularity_key (x : json) :
  numeric_popularity x = true ->
  has_score x = true /\ popularity_score x = field_score x.
Proof.
  unfold has_score, popularity_score, popularity, field_score.
  destruct x as [| | | | | |kv]; try discriminate. simpl.
  destruct (dict_lookup "popularity" kv) as [v|]; simpl; [|now split].
  destruct (num_val v); [now split|discriminate].
Qed.

Lemma numeric_popularity_scores (cast : list json) :
  forallb numeric_popularity cast = true -> forallb has_score cast = true.
Proof.
  intros H. apply forallb_forall. intros x Hx.
  rewrite forallb_forall in H. now apply numeric_popularity_key, H.
Qed.


(** The sorted cast is in descending order of the numbers under
    "popularity". *)
Lemma sorted_cast_descending (cast : list json) :
  forallb numeric_popularity cast = true ->
  descending field_score (stable_desc popularity_score cast).
Proof.
  intros Hcast.
  assert (Hsame : forall x, In x (stable_desc popularity_score cast) ->
                            popularity_score x = field_score x).
  { intros x Hx. apply numeric_popularity_key.
    rewrite forallb_forall in Hcast. apply Hcast.
    now apply (Permutation_in _ (stable_desc_perm _ popularity_score cast)). }
  pose proof (stable_desc_descending _ popularity_score cast) as Hsorted.
  unfold descending in *.
  induction Hsorted as [|x l _ IH Hall]; constructor.
  - apply IH. intros y Hy. apply Hsame. now right.
  - rewrite Forall_forall in *. intros y Hy.
    rewrite <- (Hsame x) by now left.
    rewrite <- (Hsame y) by now right.
    now apply Hall.
Qed.


(** * Further properties of the code *)

(** ** Which exceptions the operations raise *)

Lemma obind_only_local {A B : Type} (c : outcome A) (k : A -> outcome B) :
  raises_only_local c -> (forall a, raises_only_local (k a)) ->
  raises_only_local (obind c k).
Proof. destruct c as [a|e]; simpl; auto. Qed.

Lemma omap_only_local {A B : Type} (f : A -> outcome B) (l : list A) :
  (forall x, raises_only_local (f x)) -> raises_only_local (omap f l).
Proof.
  intros Hf. induction l as [|x l IH]; simpl; [exact I|].
  apply obind_only_local; [apply Hf|]. intros y.
  apply obind_only_local; [exact IH|]. intros ys. exact I.
Qed.

Lemma py_get_only_local (d : json) (k : string) (default : json) :
  raises_only_local (py_get d k default).
Proof. destruct d; simpl; auto. Qed.

Lemma py_getitem_only_local (d : json) (k : string) :
  raises_only_local (py_getitem d k).
Proof. destruct d; simpl; auto. destruct (dict_lookup k fields); simpl; auto. Qed.

Lemma py_slice_to_only_local (n : nat) (x : json) :
  raises_only_local (py_slice_to n x).
Proof. destruct x; simpl; auto. Qed.

Lemma py_iter_only_local (v : json) : raises_only_local (py_iter v).
Proof. destruct v; simpl; auto. Qed.

Lemma py_contains_only_local (needle : string) (container : json) :
  raises_only_local (py_contains needle container).
Proof. destruct container; simpl; auto. Qed.

(** [x[0]] raises IndexError on an empty list or string only, and those
    are false for [if not x]. *)
Lemma py_first_only_local (x : json) :
  py_truthy x = true -> raises_only_local (py_first x).
Proof.
  destruct x as [| | | |s|l|kv]; simpl; auto.
  - destruct s; simpl; [discriminate|auto].
  - destruct l; simpl; [discriminate|auto].
Qed.

Lemma py_lt_only_local : forall a b : json, raises_only_local (py_lt a b).
Proof.
  fix IH 1. intros a b.
  destruct a as [| | | | |xs|]; destruct b as [| | | | |ys|];
    simpl; try exact I; try reflexivity.
  revert ys. induction xs as [|x xs IHxs]; intros [|y ys]; simpl; try exact I.
  destruct (py_eq x y); [apply IHxs | apply IH].
Qed.

Lemma insert_desc_only_local (kx : json * json) (l : list (json * json)) :
  raises_only_local (insert_desc kx l).
Proof.
  induction l as [|ky l IH]; simpl; [exact I|].
  apply obind_only_local; [apply py_lt_only_local|].
  intros [|]; [|exact I].
  apply obind_only_local; [exact IH|]. intros r. exact I.
Qed.

Lemma sort_desc_only_local (l : list (json * json)) :
  raises_only_local (sort_desc l).
Proof.
  induction l as [|kx l IH]; simpl; [exact I|].
  apply obind_only_local; [exact IH|]. intros s. apply insert_desc_only_local.
Qed.

Lemma sorted_reverse_only_local (key : json -> outcome json) (v : json) :
  (forall x, raises_only_local (key x)) ->
  raises_only_local (sorted_reverse key v).
Proof.
  intros Hkey. unfold sorted_reverse.
  apply obind_only_local; [apply py_iter_only_local|]. intros items.
  apply obind_only_local.
  - apply omap_only_local. intros x.
    apply obind_only_local; [apply Hkey|]. intros k. exact I.
  - intros keyed. apply obind_only_local; [apply sort_desc_only_local|].
    intros s. exact I.
Qed.

Lemma popular_line_only_local (movie : json) :
  raises_only_local (popular_line movie).
Proof.
  unfold popular_line.
  apply obind_only_local; [apply py_getitem_only_local|]. intros title.
  apply obind_only_local; [apply py_getitem_only_local|]. intros rating. exact I.
Qed.

Lemma credit_line_only_local (movie : json) :
  raises_only_local (credit_line movie).
Proof.
  unfold credit_line.
  apply obind_only_local; [apply py_getitem_only_local|]. intros title.
  apply obind_only_local; [apply py_getitem_only_local|]. intros character. exact I.
Qed.

Lemma details_text_only_local (details : json) :
  raises_only_local (details_text details).
Proof.
  unfold details_text.
  repeat (apply obind_only_local; [apply py_getitem_only_local|]; intros ?).
  exact I.
Qed.

(** ** How the handlers run *)

Lemma except_get_json (r : request) (k : json -> M string) (log : list request) :
  except_RequestException (mbind (get_json r) k) log
  = match requests_get log r with
    | Failed detail =>
        (Returned ("Error during API call: " ++ detail), (log ++ [r])%list)
    | Body j => except_RequestException (k j) (log ++ [r])%list
    end.
Proof.
  unfold except_RequestException, mbind, get_json.
  now destruct (requests_get log r).
Qed.

Lemma except_lift {A : Type} (c : outcome A) (k : A -> M string) (log : list request) :
  raises_only_local c ->
  except_RequestException (mbind (lift c) k) log
  = match c with
    | Returned a => except_RequestException (k a) log
    | Raised e => (Raised e, log)
    end.
Proof.
  unfold except_RequestException, mbind, lift.
  destruct c as [a|e]; simpl; [reflexivity|].
  now destruct e.
Qed.

Lemma except_mret (text : string) (log : list request) :
  except_RequestException (mret text) log = (Returned text, log).
Proof. reflexivity. Qed.

Lemma handle_get_popular_movies_run (log : list request) :
  exists o,
    handle_get_popular_movies log = (o, (log ++ [popular_request])%list)
    /\ raises_only_local o.
Proof.
  unfold handle_get_popular_movies. rewrite except_get_json.
  destruct (requests_get log popular_request) as [detail|body].
  { eexists. split; [reflexivity|exact I]. }
  rewrite except_lift by apply py_get_only_local.
  pose proof (py_get_only_local body "results" (JArray [])) as H1.
  destruct (py_get body "results" (JArray [])) as [movies|e1]; [|eauto].
  rewrite except_lift by apply py_slice_to_only_local.
  pose proof (py_slice_to_only_local 5 movies) as H2.
  destruct (py_slice_to 5 movies) as [first_five|e2]; [|eauto].
  rewrite except_lift by apply py_iter_only_local.
  pose proof (py_iter_only_local first_five) as H3.
  destruct (py_iter first_five) as [items|e3]; [|eauto].
  pose proof (omap_only_local popular_line items popular_line_only_local) as H4.
  rewrite except_lift by exact H4.
  destruct (omap popular_line items) as [movie_list|e4]; [|eauto].
  rewrite except_mret. eexists. split; [reflexivity|exact I].
Qed.

Lemma handle_get_movie_details_run (movie_name : json) (log : list request) :
  exists o,
    handle_get_movie_details movie_name log
    = (o, (log ++ search_request "movie" movie_name
               :: match first_result_id
                          (requests_get log (search_request "movie" movie_name)) with
                  | Some movie_id => [details_request movie_id]
                  | None => []
                  end)%list)
    /\ raises_only_local o.
Proof.
  unfold handle_get_movie_details, first_result_id. rewrite except_get_json.
  destruct (requests_get log (search_request "movie" movie_name)) as [detail|search].
  { eexists. split; [reflexivity|exact I]. }
  rewrite except_lift by apply py_get_only_local.
  pose proof (py_get_only_local search "results" (JArray [])) as H1.
  destruct (py_get search "results" (JArray [])) as [results|e1]; [|eauto].
  destruct (py_truthy results) eqn:Htruthy; cbn [negb];
    [|rewrite except_mret; eexists; split; [reflexivity|exact I]].
  pose proof (py_first_only_local results Htruthy) as H2.
  rewrite except_lift by exact H2.
  destruct (py_first results) as [first|e2]; [|eauto].
  rewrite except_lift by apply py_getitem_only_local.
  pose proof (py_getitem_only_local first "id") as H3.
  destruct (py_getitem first "id") as [movie_id|e3]; [|eauto].
  rewrite except_get_json, <- app_assoc. cbn [app].
  destruct (requests_get _ (details_request movie_id)) as [detail|details].
  { eexists. split; [reflexivity|exact I]. }
  rewrite except_lift by apply details_text_only_local.
  pose proof (details_text_only_local details) as H4.
  destruct (details_text details) as [text|e4]; [|eauto].
  rewrite except_mret. eexists. split; [reflexivity|exact I].
Qed.

Lemma handle_get_actor_credits_run (actor_name : json) (log : list request) :
  exists o,
    handle_get_actor_credits actor_name log
    = (o, (log ++ search_request "person" actor_name
               :: match first_result_id
                          (requests_get log (search_request "person" actor_name)) with
                  | Some person_id => [credits_request person_id]
                  | None => []
                  end)%list)
    /\ raises_only_local o.
Proof.
  unfold handle_get_actor_credits, first_result_id. rewrite except_get_json.
  destruct (requests_get log (search_request "person" actor_name)) as [detail|search].
  { eexists. split; [reflexivity|exact I]. }
  rewrite except_lift by apply py_get_only_local.
  pose proof (py_get_only_local search "results" (JArray [])) as H1.
  destruct (py_get search "results" (JArray [])) as [results|e1]; [|eauto].
  destruct (py_truthy results) eqn:Htruthy; cbn [negb];
    [|rewrite except_mret; eexists; split; [reflexivity|exact I]].
  pose proof (py_first_only_local results Htruthy) as H2.
  rewrite except_lift by exact H2.
  destruct (py_first results) as [first|e2]; [|eauto].
  rewrite except_lift by apply py_getitem_only_local.
  pose proof (py_getitem_only_local first "id") as H3.
  destruct (py_getitem first "id") as [person_id|e3]; [|eauto].
  rewrite except_get_json, <- app_assoc. cbn [app].
  destruct (requests_get _ (credits_request person_id)) as [detail|response].
  { eexists. split; [reflexivity|exact I]. }
  rewrite except_lift by apply py_get_only_local.
  pose proof (py_get_only_local response "cast" (JArray [])) as H4.
  destruct (py_get response "cast" (JArray [])) as [credits|e4]; [|eauto].
  pose proof (sorted_reverse_only_local popularity_key credits
                (fun x => py_get_only_local x "popularity" (JInt 0))) as H5.
  rewrite except_lift by exact H5.
  destruct (sorted_reverse popularity_key credits) as [ranked|e5]; [|eauto].
  cbn zeta.
  pose proof (omap_only_local credit_line (firstn 5 ranked) credit_line_only_local) as H6.
  rewrite except_lift by exact H6.
  destruct (omap credit_line (firstn 5 ranked)) as [movie_list|e6]; [|eauto].
  rewrite except_mret. eexists. split; [reflexivity|exact I].
Qed.

(** In this model of a catalog call, which raises a
    [requests.RequestException] or gives a decoded body, a handler
    returns a text or raises one of KeyError, TypeError and
    AttributeError. *)
Lemma handlers_raise_only_local (query : json) (log : list request) :
  raises_only_local (fst (handle_get_popular_movies log))
  /\ raises_only_local (fst (handle_get_movie_details query log))
  /\ raises_only_local (fst (handle_get_actor_credits query log)).
Proof.
  destruct (handle_get_popular_movies_run log) as [o1 [E1 H1]].
  destruct (handle_get_movie_details_run query log) as [o2 [E2 H2]].
  destruct (handle_get_actor_credits_run query log) as [o3 [E3 H3]].
  rewrite E1, E2, E3. now repeat split.
Qed.

(** X7.  A [requests.RequestException] never leaves a handler: whichever
    of its catalog calls raises one, and whatever a successful call
    returns, the outcome of the handler is not that exception. *)
Theorem handlers_never_raise_request_exception
  (query : json) (log : list request) (detail : string) :
  fst (handle_get_popular_movies log) <> Raised (RequestException detail)
  /\ fst (handle_get_movie_details query log) <> Raised (RequestException detail)
  /\ fst (handle_get_actor_credits query log) <> Raised (RequestException detail).
Proof.
  destruct (handlers_raise_only_local query log) as [H1 [H2 H3]].
  repeat split; intros E; [rewrite E in H1|rewrite E in H2|rewrite E in H3];
    discriminate.
Qed.

(** X8.  The requests of a handler, whatever their outcome.
    [handle_get_popular_movies] issues one request.  A two-step handler
    issues the search, and then one more request exactly when the search
    reply has a first result with an "id": the details, or the credits, of
    that id.  Earlier requests stay in the log. *)
Theorem handlers_requests (query : json) (log : list request) :
  snd (handle_get_popular_movies log) = (log ++ [popular_request])%list
  /\ snd (handle_get_movie_details query log)
     = (log ++ search_request "movie" query
            :: match first_result_id (requests_get log (search_request "movie" query)) with
               | Some movie_id => [details_request movie_id]
               | None => []
               end)%list
  /\ snd (handle_get_actor_credits query log)
     = (log ++ search_request "person" query
            :: match first_result_id (requests_get log (search_request "person" query)) with
               | Some person_id => [credits_request person_id]
               | None => []
               end)%list.
Proof.
  destruct (handle_get_popular_movies_run log) as [o1 [E1 _]].
  destruct (handle_get_movie_details_run query log) as [o2 [E2 _]].
  destruct (handle_get_actor_credits_run query log) as [o3 [E3 _]].
  rewrite E1, E2, E3. now repeat split.
Qed.

(** X9.  When the catalog cannot be reached, each handler gives up after
    its first request and returns "Error during API call: " followed by the
    text of the exception. *)
Theorem catalog_unreachable (query : json) (log : list request) (detail : string) :
  (forall r, requests_get log r = Failed detail) ->
  handle_get_popular_movies log
  = (Returned ("Error during API call: " ++ detail), (log ++ [popular_request])%list)
  /\ handle_get_movie_details query log
     = (Returned ("Error during API call: " ++ detail),
        (log ++ [search_request "movie" query])%list)
  /\ handle_get_actor_credits query log
     = (Returned ("Error during API call: " ++ detail),
        (log ++ [search_request "person" query])%list).
Proof.
  intros Hfail.
  unfold handle_get_popular_movies, handle_get_movie_details, handle_get_actor_credits.
  rewrite !except_get_json, !Hfail. now repeat split.
Qed.

(** X10.  When the search succeeds with a first result and the second
    request fails, a two-step handler returns the same "Error during API
    call: " text; both requests were made and nothing is rendered from the
    search. *)
Theorem second_call_failure
  (movie : bool) (query id : json) (log : list request) (detail : string) :
  let search := search_request (if movie then "movie" else "person") query in
  let second := if movie then details_request id else credits_request id in
  first_result_id (requests_get log search) = Some id ->
  requests_get (log ++ [search])%list second = Failed detail ->
  (if movie then handle_get_movie_details query log
   else handle_get_actor_credits query log)
  = (Returned ("Error during API call: " ++ detail), (log ++ [search; second])%list).
Proof.
  intros search second Hid Hfail. subst search second.
  unfold first_result_id in Hid.
  destruct movie;
    unfold handle_get_movie_details, handle_get_actor_credits;
    rewrite except_get_json;
    (destruct (requests_get log (search_request _ query)) as [?|body];
     [discriminate|]);
    rewrite except_lift by apply py_get_only_local;
    (destruct (py_get body "results" (JArray [])) as [results|?]; [|discriminate]);
    (destruct (py_truthy results) eqn:Htruthy; [|discriminate]); cbn [negb];
    rewrite except_lift by (now apply py_first_only_local);
    (destruct (py_first results) as [first|?]; [|discriminate]);
    rewrite except_lift by apply py_getitem_only_local;
    (destruct (py_getitem first "id") as [id'|?]; [|discriminate]);
    injection Hid as ->;
    rewrite except_get_json, Hfail; now rewrite <- app_assoc.
Qed.

(** X11.  An empty list renders as the bare heading.  When the popular
    reply has no "results" or an empty list there, the text is the heading
    and a line break; when the credits reply has no "cast" or an empty
    list, the text is the heading of the actor and a line break. *)
Theorem empty_lists_give_bare_headings
  (actor_name person_id popular response : json) (log : list request) :
  requests_get log popular_request = Body popular ->
  py_get popular "results" (JArray []) = Returned (JArray []) ->
  first_result_id (requests_get log (search_request "person" actor_name))
  = Some person_id ->
  requests_get (log ++ [search_request "person" actor_name])%list
               (credits_request person_id) = Body response ->
  py_get response "cast" (JArray []) = Returned (JArray []) ->
  handle_get_popular_movies log
  = (Returned ("The top 5 popular movies now:" ++ nl), (log ++ [popular_request])%list)
  /\ handle_get_actor_credits actor_name log
     = (Returned ("'" ++ py_str actor_name ++ "' (ID: " ++ py_str person_id
                  ++ ")'s top movies:" ++ nl),
        (log ++ [search_request "person" actor_name; credits_request person_id])%list).
Proof.
  intros Hpopular Hresults Hid Hcredits Hcast. split.
  - unfold handle_get_popular_movies. rewrite except_get_json, Hpopular.
    rewrite except_lift by apply py_get_only_local. rewrite Hresults.
    reflexivity.
  - unfold first_result_id in Hid.
    unfold handle_get_actor_credits. rewrite except_get_json.
    destruct (requests_get log (search_request "person" actor_name)) as [?|body];
      [discriminate|].
    rewrite except_lift by apply py_get_only_local.
    destruct (py_get body "results" (JArray [])) as [results|?]; [|discriminate].
    destruct (py_truthy results) eqn:Htruthy; [|discriminate]. cbn [negb].
    rewrite except_lift by (now apply py_first_only_local).
    destruct (py_first results) as [first|?]; [|discriminate].
    rewrite except_lift by apply py_getitem_only_local.
    destruct (py_getitem first "id") as [id'|?]; [|discriminate].
    injection Hid as ->.
    rewrite except_get_json, Hcredits.
    rewrite except_lift by apply py_get_only_local. rewrite Hcast.
    rewrite <- app_assoc. reflexivity.
Qed.

(** ** How a turn and the loop run *)

Lemma main_dispatch_run (function_name parameters : json) (log : list request) :
  exists o suffix,
    main_dispatch function_name parameters log = (o, (log ++ suffix)%list)
    /\ List.length suffix <= 2
    /\ raises_only_local o.
Proof.
  assert (Hstay : forall o : outcome string,
             raises_only_local o ->
             exists o' suffix, (o, log) = (o', (log ++ suffix)%list)
                               /\ List.length suffix <= 2 /\ raises_only_local o').
  { intros o Ho. exists o, []. rewrite app_nil_r. simpl. repeat split; auto. }
  unfold main_dispatch.
  destruct (py_eq_str function_name "get_popular_movies").
  { destruct (handle_get_popular_movies_run log) as [o [E H]].
    exists o, [popular_request]. rewrite E. simpl. repeat split; auto. }
  destruct (py_eq_str function_name "get_movie_details").
  { unfold mbind, lift.
    pose proof (py_contains_only_local "movie_name" parameters) as H1.
    destruct (py_contains "movie_name" parameters) as [[|]|e];
      [| |now apply (Hstay (Raised e))].
    - pose proof (py_getitem_only_local parameters "movie_name") as H2.
      destruct (py_getitem parameters "movie_name") as [movie_name|e];
        [|now apply (Hstay (Raised e))].
      destruct (handle_get_movie_details_run movie_name log) as [o [E H]].
      rewrite E. eexists. eexists. split; [reflexivity|]. split; [|exact H].
      destruct (first_result_id _); simpl; lia.
    - now apply (Hstay (Returned _)). }
  destruct (py_eq_str function_name "get_actor_credits").
  { unfold mbind, lift.
    pose proof (py_contains_only_local "actor_name" parameters) as H1.
    destruct (py_contains "actor_name" parameters) as [[|]|e];
      [| |now apply (Hstay (Raised e))].
    - pose proof (py_getitem_only_local parameters "actor_name") as H2.
      destruct (py_getitem parameters "actor_name") as [actor_name|e];
        [|now apply (Hstay (Raised e))].
      destruct (handle_get_actor_credits_run actor_name log) as [o [E H]].
      rewrite E. eexists. eexists. split; [reflexivity|]. split; [|exact H].
      destruct (first_result_id _); simpl; lia.
    - now apply (Hstay (Returned _)). }
  destruct (py_eq_str function_name "unsupported_request");
    now apply (Hstay (Returned _)).
Qed.

Lemma intent_fields_only_local (intent : json) :
  raises_only_local (intent_fields intent).
Proof.
  unfold intent_fields.
  apply obind_only_local; [apply py_get_only_local|]. intros function_name.
  apply obind_only_local; [apply py_get_only_local|]. intros parameters. exact I.
Qed.

Lemma main_turn_run (user_input : string) (log : list request) :
  exists o suffix,
    main_turn user_input log = (o, (log ++ suffix)%list)
    /\ List.length suffix <= 2
    /\ raises_only_local o.
Proof.
  unfold main_turn, main_respond, mbind, lift.
  destruct (get_intent_from_llm_returns user_input) as [intent ->].
  pose proof (intent_fields_only_local intent) as H.
  destruct (intent_fields intent) as [[function_name parameters]|e].
  - apply main_dispatch_run.
  - exists (Raised e), []. rewrite app_nil_r. simpl. repeat split; auto.
Qed.

Lemma main_run (inputs : list string) (log : list request) :
  exists printed ending suffix,
    main inputs log = (printed, ending, (log ++ suffix)%list)
    /\ List.length suffix <= 2 * List.length inputs
    /\ List.length printed <= List.length inputs
    /\ (ending = Returned tt \/ ending = Raised EOFError
        \/ exists e, ending = Raised e /\ local_error e = true).
Proof.
  revert log. induction inputs as [|user_input rest IH]; intros log.
  - exists [], (Raised EOFError), []. rewrite app_nil_r. simpl. repeat split; auto.
  - cbn [main]. destruct (String.eqb (lower user_input) "quit").
    { exists [], (Returned tt), []. rewrite app_nil_r. simpl.
      repeat split; auto; lia. }
    destruct (main_turn_run user_input log) as [o [s1 [E [Hs1 Ho]]]].
    rewrite E. destruct o as [response_text|e].
    + destruct (IH (log ++ s1)%list) as [printed [ending [s2 [E2 [Hs2 [Hp Hend]]]]]].
      rewrite E2. exists (response_text :: printed), ending, (s1 ++ s2)%list.
      rewrite app_assoc, length_app. simpl. repeat split; auto; lia.
    + exists [], (Raised e), s1. simpl. repeat split; try lia.
      right. right. now exists e.
Qed.

(** X3.  [get_intent_from_llm] never raises, and its value is fixed by the
    response: what the cleaned text decodes to when the response has a
    [text] attribute and the text decodes; the dict
    [{"function_name": "unsupported_request", "parameters": {}}] in
    every other case, that is when the call fails, when the response has
    no [text] attribute (the anthropic [Message], whatever it holds), and
    when the text does not decode. *)
Theorem get_intent_from_llm_value (user_text : string) :
  get_intent_from_llm user_text
  = Returned match messages_create SYSTEM_PROMPT user_text with
             | Text text =>
                 match json_loads (clean text) with
                 | Some intent_data => intent_data
                 | None => unsupported_intent
                 end
             | Unavailable | Message _ => unsupported_intent
             end.
Proof.
  unfold get_intent_from_llm.
  destruct (messages_create SYSTEM_PROMPT user_text) as [|text|content]; simpl;
    [reflexivity| |reflexivity].
  now destruct (json_loads (clean text)).
Qed.

(** X6.  When the classifier call fails, or its reply does not decode, the
    turn answers with the "not supported" sentence and no catalog request
    is made. *)
Theorem main_turn_degrades (user_input : string) (log : list request) :
  messages_create SYSTEM_PROMPT user_input = Unavailable
  \/ (exists text, messages_create SYSTEM_PROMPT user_input = Text text
                   /\ json_loads (clean text) = None) ->
  main_turn user_input log = (Returned unsupported_text, log).
Proof.
  intros [Hcall | [text [Hreply Hloads]]]; apply main_turn_fallback.
  - now apply get_intent_from_llm_call_failure.
  - now apply get_intent_from_llm_malformed with text.
Qed.

(** X13.  When the intent names a two-step handler and its parameters hold
    the name asked for, the response is what the handler gives for the
    value found under that name; other parameters play no part. *)
Theorem main_respond_forwards_parameter
  (intent value : json) (movie : bool) (kv : list (string * json))
  (log : list request) :
  py_get intent "function_name" JNull
  = Returned (JString (if movie then "get_movie_details" else "get_actor_credits")) ->
  py_get intent "parameters" (JObject []) = Returned (JObject kv) ->
  dict_lookup (if movie then "movie_name" else "actor_name") kv = Some value ->
  main_respond intent log
  = if movie then handle_get_movie_details value log
    else handle_get_actor_credits value log.
Proof.
  intros Hname Hparams Hvalue.
  unfold main_respond, intent_fields, mbind, lift.
  rewrite Hname, Hparams. simpl.
  destruct movie; unfold main_dispatch, mbind, lift; simpl; now rewrite Hvalue.
Qed.

(** X14.  When the parameters of a two-step intent are not a mapping, no
    catalog request is made: the response is the "could not extract" text
    (a list or a string that does not hold the name) or the dispatch
    raises TypeError. *)
Theorem non_mapping_parameters
  (movie : bool) (parameters : json) (log : list request) :
  is_dict parameters = false ->
  exists o,
    main_dispatch (JString (if movie then "get_movie_details" else "get_actor_credits"))
                  parameters log = (o, log)
    /\ (o = Returned (if movie then "LLM could not extract the movie name."
                      else "LLM could not extract the actor name.")
        \/ o = Raised TypeError).
Proof.
  intros Hdict.
  assert (Hdone : forall (o : outcome string) (text : string),
             o = Returned text \/ o = Raised TypeError ->
             exists o', (o, log) = (o', log)
                        /\ (o' = Returned text \/ o' = Raised TypeError)).
  { intros o text H. now exists o. }
  destruct movie; unfold main_dispatch, mbind, lift; simpl;
    destruct parameters as [| | | |s|l|kv]; try discriminate Hdict; simpl;
    try (apply Hdone; now right).
  - destruct (str_contains "movie_name" s); apply Hdone; auto.
  - destruct (existsb _ l); apply Hdone; auto.
  - destruct (str_contains "actor_name" s); apply Hdone; auto.
  - destruct (existsb _ l); apply Hdone; auto.
Qed.

(** X15.  The loop makes at most two catalog requests for each line it
    reads and prints at most one response for each; the requests made
    before stay at the front of the log. *)
Theorem main_requests_bounded (inputs : list string) (log : list request) :
  exists suffix,
    snd (main inputs log) = (log ++ suffix)%list
    /\ List.length suffix <= 2 * List.length inputs
    /\ List.length (fst (fst (main inputs log))) <= List.length inputs.
Proof.
  destruct (main_run inputs log) as [printed [ending [suffix [E [Hs [Hp _]]]]]].
  exists suffix. now rewrite E.
Qed.

(** X16.  With the client of line 17, whose responses have no [text]
    attribute, the loop answers every line typed before "quit" with the
    "not supported" sentence and never queries the catalog; it ends
    normally when a line reads "quit", and with the EOFError of [input]
    when the lines run out before. *)
Theorem main_never_reaches_catalog (inputs : list string) (log : list request) :
  (forall line, has_text (messages_create SYSTEM_PROMPT line) = false) ->
  main inputs log
  = (map (fun _ => unsupported_text) (before_quit inputs),
     if existsb is_quit inputs then Returned tt else Raised EOFError,
     log).
Proof.
  intros Hclient. induction inputs as [|line rest IH]; [reflexivity|].
  cbn [main before_quit existsb].
  change (String.eqb (lower line) "quit") with (is_quit line).
  destruct (is_quit line); cbn [orb map]; [reflexivity|].
  rewrite (main_turn_fallback line log (get_intent_from_llm_no_text line (Hclient line))).
  now rewrite IH.
Qed.

(** X17.  When the loop ends normally, some line reads "quit" in some
    letter case, every line before it was answered, and no line after it
    was read: the run is the run on the lines up to that one. *)
Theorem main_normal_end_is_quit
  (inputs printed : list string) (log log' : list request) :
  main inputs log = (printed, Returned tt, log') ->
  exists before line after,
    inputs = (before ++ line :: after)%list
    /\ lower line = "quit"
    /\ Forall (fun u => lower u <> "quit") before
    /\ List.length printed = List.length before
    /\ main (before ++ [line])%list log = (printed, Returned tt, log').
Proof.
  revert printed log. induction inputs as [|user_input rest IH]; intros printed log.
  - simpl. discriminate.
  - cbn [main]. destruct (String.eqb (lower user_input) "quit") eqn:Hquit.
    + intros H. injection H as <- <-.
      exists [], user_input, rest. apply String.eqb_eq in Hquit.
      repeat split; auto. simpl. apply String.eqb_eq in Hquit. now rewrite Hquit.
    + destruct (main_turn user_input log) as [[response_text|e] log1] eqn:Hturn;
        [|discriminate].
      destruct (main rest log1) as [[printed1 ending1] log2] eqn:Hrest.
      intros H. injection H as <- -> <-.
      destruct (IH _ _ Hrest) as [before [line [after [-> [Hline [Hall [Hlen Hrun]]]]]]].
      exists (user_input :: before), line, after.
      repeat split; auto.
      * constructor; [|exact Hall]. intros Heq.
        apply String.eqb_neq in Hquit. contradiction.
      * simpl. now rewrite Hlen.
      * cbn [app main]. now rewrite Hquit, Hturn, Hrun.
Qed.

(** ** The text handed to the decoder *)

Lemma str_app_assoc (a b c : string) : (a ++ b) ++ c = a ++ b ++ c.
Proof. induction a as [|x a IH]; simpl; [reflexivity|now rewrite IH]. Qed.

Lemma prefix_app (p a w : string) :
  String.prefix p a = true -> String.prefix p (a ++ w) = true.
Proof.
  revert a. induction p as [|x p IH]; intros a.
  - intros _. now destruct (a ++ w).
  - destruct a as [|y a]; simpl; [discriminate|].
    destruct (ascii_dec x y); [apply IH|discriminate].
Qed.

Lemma str_contains_app (p a w : string) :
  str_contains p (a ++ w) = false -> str_contains p a = false.
Proof.
  induction a as [|y a IH]; cbn [str_contains append].
  - intros H. destruct p as [|x p]; [|reflexivity].
    destruct w; simpl in H; discriminate.
  - intros H. apply orb_false_iff in H as [H1 H2].
    rewrite (IH H2), orb_false_r.
    destruct (String.prefix p (String y a)) eqn:Hp; [|reflexivity].
    pose proof (prefix_app p (String y a) w Hp) as Hq.
    cbn [append] in Hq. congruence.
Qed.

Lemma str_contains_lstrip (p s : string) :
  str_contains p s = false -> str_contains p (lstrip s) = false.
Proof.
  induction s as [|c s IH]; simpl; [auto|].
  intros H. destruct (is_space c); [|exact H].
  apply orb_false_iff in H as [_ H]. now apply IH.
Qed.

Lemma rstrip_split (s : string) : exists w, s = rstrip s ++ w.
Proof.
  induction s as [|c s [w IH]]; simpl; [now exists EmptyString|].
  destruct (rstrip s) as [|d r] eqn:Hr.
  - destruct (is_space c).
    + now exists (String c s).
    + exists w. simpl. now rewrite IH at 1.
  - exists w. simpl. now rewrite IH at 1.
Qed.

Lemma str_contains_rstrip (p s : string) :
  str_contains p s = false -> str_contains p (rstrip s) = false.
Proof.
  intros H. destruct (rstrip_split s) as [w Hw].
  rewrite Hw in H. now apply str_contains_app in H.
Qed.

Lemma dec_backtick (c : ascii) (x : bool) :
  match ascii_dec "`"%char c with left _ => x | right _ => false end
  = if Ascii.eqb c backtick then x else false.
Proof.
  destruct (ascii_dec "`"%char c) as [<-|Hne]; [reflexivity|].
  destruct (Ascii.eqb_spec c backtick) as [->|_]; [|reflexivity].
  now contradiction Hne.
Qed.

Lemma prefix_fence (s : string) :
  String.prefix "```" s = (3 <=? leading_backticks s)%nat.
Proof.
  destruct s as [|c1 [|c2 [|c3 s]]]; cbn [String.prefix leading_backticks];
    rewrite ?dec_backtick;
    repeat match goal with
           | |- context [Ascii.eqb ?a backtick] => destruct (Ascii.eqb a backtick)
           end; try reflexivity.
  now destruct s.
Qed.

(** Removing the fences leaves no fence, and no more leading backticks
    than there were. *)
Lemma remove_fences_bounded (n : nat) (s : string) :
  String.length s <= n ->
  str_contains "```" (remove_all "```" s) = false
  /\ leading_backticks (remove_all "```" s) <= leading_backticks s.
Proof.
  revert s. induction n as [|n IH]; intros s Hlen.
  { destruct s; [split; [reflexivity|simpl; lia]|simpl in Hlen; lia]. }
  destruct s as [|c1 s1]; [split; [reflexivity|simpl; lia]|].
  unfold remove_all in *. cbn [remove_from].
  rewrite prefix_fence.
  destruct (3 <=? leading_backticks (String c1 s1))%nat eqn:Hthree.
  - apply Nat.leb_le in Hthree.
    destruct s1 as [|c2 [|c3 s3]]; simpl in Hthree;
      repeat match goal with
             | H : context [Ascii.eqb ?a backtick] |- _ =>
                 destruct (Ascii.eqb_spec a backtick) as [->|?]; simpl in H
             end; try lia.
    cbn [String.length Nat.sub remove_from].
    destruct (IH s3) as [H1 H2]; [simpl in Hlen; lia|].
    split; [exact H1|]. simpl. lia.
  - apply Nat.leb_gt in Hthree.
    destruct (IH s1) as [H1 H2]; [simpl in Hlen; lia|].
    assert (Hlead : leading_backticks (String c1 (remove_from "```" 0 s1))
                    <= leading_backticks (String c1 s1)).
    { simpl. destruct (Ascii.eqb c1 backtick); lia. }
    split; [|exact Hlead].
    cbn [str_contains]. rewrite prefix_fence, H1, orb_false_r.
    apply Nat.leb_gt. lia.
Qed.

(** X5.  The text handed to [json.loads] never holds a code fence: three
    backticks in a row do not occur in it, whatever the reply was. *)
Theorem clean_leaves_no_fence (text : string) :
  str_contains "```" (clean text) = false.
Proof.
  unfold clean, strip.
  apply str_contains_rstrip, str_contains_lstrip.
  now apply (remove_fences_bounded _ _ (Nat.le_refl _)).
Qed.

Lemma remove_from_no_backtick (old' a b : string) :
  no_backtick a = true ->
  remove_from (String "`"%char old') 0 (a ++ b)
  = a ++ remove_from (String "`"%char old') 0 b.
Proof.
  induction a as [|c a IH]; intros Ha; [reflexivity|].
  cbn [no_backtick] in Ha. apply andb_prop in Ha as [Hc Ha].
  cbn [append remove_from String.prefix]. rewrite dec_backtick.
  apply negb_true_iff in Hc. rewrite Hc. now rewrite (IH Ha).
Qed.

Lemma lstrip_length (s : string) : String.length (lstrip s) <= String.length s.
Proof.
  induction s as [|c s IH]; simpl; [lia|].
  destruct (is_space c); simpl; lia.
Qed.

Lemma lstrip_fixed_app (s w : string) :
  lstrip s = s -> s <> EmptyString -> lstrip (s ++ w) = s ++ w.
Proof.
  destruct s as [|c s]; [congruence|]. intros H _. simpl in *.
  destruct (is_space c); [|reflexivity].
  pose proof (lstrip_length s) as Hlen. rewrite H in Hlen. simpl in Hlen. lia.
Qed.

Lemma rstrip_all_space (w : string) : all_space w = true -> rstrip w = EmptyString.
Proof.
  induction w as [|c w IH]; simpl; [reflexivity|].
  intros H. apply andb_prop in H as [Hc Hw]. now rewrite (IH Hw), Hc.
Qed.

Lemma lstrip_all_space (w : string) : all_space w = true -> lstrip w = EmptyString.
Proof.
  induction w as [|c w IH]; simpl; [reflexivity|].
  intros H. apply andb_prop in H as [Hc Hw]. now rewrite Hc, (IH Hw).
Qed.

Lemma rstrip_app_spaces (a w : string) :
  all_space w = true -> rstrip (a ++ w) = rstrip a.
Proof.
  intros Hw. induction a as [|c a IH]; simpl.
  - now apply rstrip_all_space.
  - now rewrite IH.
Qed.

Lemma rstrip_app_fixed (a b : string) :
  rstrip b = b -> b <> EmptyString -> rstrip (a ++ b) = a ++ b.
Proof.
  intros Hb Hne. induction a as [|c a IH]; simpl; [exact Hb|].
  rewrite IH. destruct (a ++ b) as [|d r] eqn:Hab; [|reflexivity].
  destruct a; simpl in Hab; [contradiction|discriminate].
Qed.

Lemma str_app_nil_r (a : string) : a ++ EmptyString = a.
Proof. induction a as [|x a IH]; simpl; [reflexivity|now rewrite IH]. Qed.

Lemma strip_between (pre body post : string) :
  lstrip pre = pre -> pre <> EmptyString ->
  rstrip post = post -> post <> EmptyString ->
  strip (pre ++ body ++ post) = pre ++ body ++ post.
Proof.
  intros Hpre Hpre' Hpost Hpost'. unfold strip.
  rewrite (lstrip_fixed_app pre _ Hpre Hpre').
  rewrite (rstrip_app_fixed pre (body ++ post)); [reflexivity| |].
  - now apply rstrip_app_fixed.
  - destruct body; simpl; [exact Hpost'|discriminate].
Qed.

Lemma strip_lines (body : string) :
  lstrip body = body -> rstrip body = body -> strip (nl ++ body ++ nl) = body.
Proof.
  intros Hl Hr. unfold strip.
  change (lstrip (nl ++ body ++ nl)) with (lstrip (body ++ nl)).
  destruct body as [|c b] eqn:Hbody; [reflexivity|]. rewrite <- Hbody in *.
  rewrite lstrip_fixed_app by (auto; now subst).
  now rewrite rstrip_app_spaces.
Qed.

(** X4.  A reply that wraps its JSON in a code fence, with or without the
    "json" tag, is decoded as the JSON alone: for a body with no backtick
    and no white space at either end, [clean] gives back the body from
    the fenced reply, and leaves the bare body as it is. *)
Theorem clean_unwraps_fenced_reply (body : string) :
  lstrip body = body -> rstrip body = body -> no_backtick body = true ->
  clean ("```json" ++ nl ++ body ++ nl ++ "```") = body
  /\ clean ("```" ++ nl ++ body ++ nl ++ "```") = body
  /\ clean body = body.
Proof.
  intros Hl Hr Hticks.
  assert (Hjson : forall x, remove_from "```json" 0 (("```json" ++ nl) ++ x)
                            = nl ++ remove_from "```json" 0 x) by reflexivity.
  assert (Hkeep : forall x, remove_from "```json" 0 (("```" ++ nl) ++ x)
                            = ("```" ++ nl) ++ remove_from "```json" 0 x) by reflexivity.
  assert (Hfence : forall x, remove_from "```" 0 (("```" ++ nl) ++ x)
                             = nl ++ remove_from "```" 0 x) by reflexivity.
  assert (Hfence' : forall x, remove_from "```" 0 (nl ++ x)
                              = nl ++ remove_from "```" 0 x) by reflexivity.
  assert (Hbody : forall old' post,
             remove_from (String "`"%char old') 0 (body ++ post)
             = body ++ remove_from (String "`"%char old') 0 post).
  { intros old' post. now apply remove_from_no_backtick. }
  unfold clean, remove_all. repeat split.
  - change ("```json" ++ nl ++ body ++ nl ++ "```")
      with (("```json" ++ nl) ++ body ++ (nl ++ "```")).
    rewrite strip_between by (reflexivity || discriminate).
    rewrite Hjson, Hbody, Hfence', Hbody.
    now apply strip_lines.
  - change ("```" ++ nl ++ body ++ nl ++ "```")
      with (("```" ++ nl) ++ body ++ (nl ++ "```")).
    rewrite strip_between by (reflexivity || discriminate).
    rewrite Hkeep, Hbody.
    change (remove_from "```json" 0 (nl ++ "```")) with (nl ++ "```").
    rewrite Hfence, Hbody.
    now apply strip_lines.
  - assert (Hstrip : strip body = body) by (unfold strip; now rewrite Hl, Hr).
    rewrite Hstrip.
    assert (Hsame : forall old', remove_from (String "`"%char old') 0 body = body).
    { intros old'. rewrite <- (str_app_nil_r body) at 1.
      rewrite Hbody. apply str_app_nil_r. }
    now rewrite !Hsame.
Qed.

(** ** The credits that are shown *)

Lemma descending_app_le {A : Type} (score : A -> Q) (l1 l2 : list A) (a b : A) :
  descending score (l1 ++ l2)%list -> In a l1 -> In b l2 ->
  (score b <= score a)%Q.
Proof.
  unfold descending. induction l1 as [|x l1 IH]; intros Hsorted Ha Hb; [contradiction|].
  simpl in Hsorted. apply StronglySorted_inv in Hsorted as [Hrest Hall].
  destruct Ha as [->|Ha]; [|now apply IH].
  rewrite Forall_forall in Hall. apply Hall. apply in_or_app. now right.
Qed.

(** X12.  The five credits shown are the most popular ones: on a cast
    whose records have a number, or nothing, under "popularity", no
    credit left out of the first five of the sorted list has a higher
    popularity than one of the five (a missing field counting as 0). *)
Theorem top_five_dominate (cast ranked : list json) (shown hidden : json) :
  forallb numeric_popularity cast = true ->
  sorted_reverse popularity_key (JArray cast) = Returned ranked ->
  In shown (firstn 5 ranked) -> In hidden (skipn 5 ranked) ->
  (field_score hidden <= field_score shown)%Q.
Proof.
  intros Hcast Hsorted Hshown Hhidden.
  rewrite (sorted_reverse_refines cast (numeric_popularity_scores cast Hcast)) in Hsorted.
  injection Hsorted as <-.
  apply (descending_app_le field_score
           (firstn 5 (stable_desc popularity_score cast))
           (skipn 5 (stable_desc popularity_score cast))); try assumption.
  rewrite firstn_skipn. now apply sorted_cast_descending.
Qed.

(** ** Start-up *)

Lemma unset_some (s : string) : unset (Some s) = false <-> s <> EmptyString.
Proof. simpl. apply String.eqb_neq. Qed.

Lemma load_system_prompt_returns (f : prompt_file) (prompt : string) :
  load_system_prompt f = inr prompt <->
  exists text, f = FileText text /\ strip text <> EmptyString
               /\ prompt = strip text ++ nl ++ nl.
Proof.
  unfold load_system_prompt, read_system_prompt. split.
  - destruct f as [|detail|text]; try discriminate.
    destruct (String.eqb_spec (strip text) EmptyString) as [E|E]; simpl;
      [discriminate|].
    intros H. injection H as <-. now exists text.
  - intros [text [-> [Hne ->]]].
    apply String.eqb_neq in Hne. now rewrite Hne.
Qed.

(** X1.  The start-up succeeds exactly when both keys are set to non-empty
    strings and [system_prompt.txt] holds more than white space; the
    settings are then the two keys and the stripped text of the file
    followed by two line breaks. *)
Theorem startup_succeeds_iff
  (getenv : string -> option string) (f : prompt_file) (s : settings) :
  startup getenv f = inr s <->
  exists tmdb llm text,
    getenv "TMDB_API_KEY" = Some tmdb /\ tmdb <> EmptyString
    /\ getenv "LLM_API_KEY" = Some llm /\ llm <> EmptyString
    /\ f = FileText text /\ strip text <> EmptyString
    /\ s = {| tmdb_api_key := tmdb; llm_api_key := llm;
              system_prompt := strip text ++ nl ++ nl |}.
Proof.
  unfold startup. split.
  - destruct (getenv "TMDB_API_KEY") as [tmdb|]; [|discriminate].
    destruct (getenv "LLM_API_KEY") as [llm|]; [|discriminate].
    destruct (unset (Some tmdb)) eqn:Ht; [discriminate|].
    destruct (unset (Some llm)) eqn:Hl; [discriminate|]. cbn [orb].
    destruct (load_system_prompt f) as [e|prompt] eqn:Hp; [discriminate|].
    apply load_system_prompt_returns in Hp as [text [-> [Hne ->]]].
    intros H. injection H as <-.
    exists tmdb, llm, text. apply unset_some in Ht. apply unset_some in Hl.
    now repeat split.
  - intros [tmdb [llm [text [-> [Ht [-> [Hl [-> [Hne ->]]]]]]]]].
    apply unset_some in Ht. apply unset_some in Hl. rewrite Ht, Hl. cbn [orb].
    assert (Hp : load_system_prompt (FileText text) = inr (strip text ++ nl ++ nl)).
    { apply load_system_prompt_returns. now exists text. }
    now rewrite Hp.
Qed.

(** X2.  When the start-up fails, the exception tells why: EnvironmentError
    when a key is unset or empty, whatever the state of the file;
    otherwise FileNotFoundError when the file is missing, and
    RuntimeError, carrying the text of the cause, when the file cannot
    be read or holds only white space. *)
Theorem startup_failure_kinds
  (getenv : string -> option string) (f : prompt_file) (e : startup_error) :
  startup getenv f = inl e ->
  let keys_unset := unset (getenv "TMDB_API_KEY") || unset (getenv "LLM_API_KEY") in
  (keys_unset = true
   /\ e = EnvironmentError "Set API keys in .env file: TMDB_API_KEY and LLM_API_KEY")
  \/ (keys_unset = false /\ f = NoSuchFile
      /\ e = FileNotFoundError "Create `system_prompt.txt` in the project root!")
  \/ (keys_unset = false
      /\ exists detail, f = ReadFailed detail
                        /\ e = RuntimeError ("Failed to load system prompt: " ++ detail))
  \/ (keys_unset = false
      /\ exists text, f = FileText text /\ strip text = EmptyString
                      /\ e = RuntimeError
                               "Failed to load system prompt: `system_prompt.txt` is empty").
Proof.
  intros H keys_unset. subst keys_unset. unfold startup in H.
  destruct (getenv "TMDB_API_KEY") as [tmdb|];
    [|injection H as <-; left; now split].
  destruct (getenv "LLM_API_KEY") as [llm|];
    [|injection H as <-; left; split; [apply orb_true_r|reflexivity]].
  destruct (unset (Some tmdb) || unset (Some llm)) eqn:Hkeys;
    [injection H as <-; left; now split|].
  right. unfold load_system_prompt, read_system_prompt in H.
  destruct f as [|detail|text]; simpl in H.
  - injection H as <-. left. now repeat split.
  - injection H as <-. right. left. split; [reflexivity|]. now exists detail.
  - destruct (String.eqb_spec (strip text) EmptyString) as [E|E]; simpl in H;
      [|discriminate].
    injection H as <-. right. right. split; [reflexivity|]. now exists text.
Qed.

(** A file of white space only strips to nothing. *)
Lemma strip_all_space (text : string) :
  all_space text = true -> strip text = EmptyString.
Proof. intros H. unfold strip. now rewrite (lstrip_all_space text H). Qed.

End Program.

(** * Concrete runs

    The theorems above on the test doubles of [Stub]: a classifier that
    answers with the text it is given, and the two catalogs. *)

(** C1 on the reply [[]] of a client whose [Message] has no [text]: the
    intent is the sentinel and the turn answers "not supported". *)
Lemma C1_every_reply_degrades_to_sentinel_witness :
  get_intent_from_llm Stub.prompt Anthropic.messages_create Anthropic.json_loads "[]"
  = Returned unsupported_intent
  /\ (intent <- get_intent_from_llm Stub.prompt Anthropic.messages_create
                  Anthropic.json_loads "[]" ;;
      intent_fields intent)%outcome
     = Returned (JString "unsupported_request", JObject [])
  /\ main_turn Stub.api_key Stub.prompt Anthropic.messages_create Anthropic.json_loads
               Stub.requests_get Stub.repr "[]" []
     = (Returned unsupported_text, []).
Proof.
  apply (C1_every_reply_degrades_to_sentinel Stub.api_key Stub.prompt
           Anthropic.messages_create Anthropic.json_loads Stub.requests_get Stub.repr
           "[]" []).
  reflexivity.
Defined.

(** The same reply read from a response object that has a [text]
    attribute: the turn raises AttributeError and [main] stops. *)
Lemma text_stub_list_reply_raises :
  main_turn Stub.api_key Stub.prompt Stub.messages_create Stub.json_loads
            Stub.requests_get Stub.repr "[]" []
  = (Raised AttributeError, [])
  /\ main Stub.api_key Stub.prompt Stub.messages_create Stub.json_loads
          Stub.requests_get Stub.repr ["[]"; "quit"] []
     = ([], Raised AttributeError, []).
Proof. split; reflexivity. Qed.

(** C2 on the reply [{}], an object without "function_name", of a client
    whose [Message] has no [text]: the action is "unsupported_request". *)
Lemma C2_action_is_never_null_witness :
  Anthropic.json_loads (clean "{}") = Some (JObject [])
  /\ exists action parameters,
       (intent <- get_intent_from_llm Stub.prompt Anthropic.messages_create
                    Anthropic.json_loads "{}" ;;
        intent_fields intent)%outcome = Returned (action, parameters)
       /\ action = JString "unsupported_request"
       /\ action <> JNull.
Proof.
  split; [reflexivity|].
  apply (C2_action_is_never_null Stub.prompt Anthropic.messages_create
           Anthropic.json_loads "{}").
  reflexivity.
Defined.

(** The same reply read from a response object that has a [text]
    attribute: the action is None. *)
Lemma text_stub_empty_object_has_null_action :
  get_intent_from_llm Stub.prompt Stub.messages_create Stub.json_loads "{}"
  = Returned (JObject [])
  /\ intent_fields (JObject []) = Returned (JNull, JObject [])
  /\ main_turn Stub.api_key Stub.prompt Stub.messages_create Stub.json_loads
               Stub.requests_get Stub.repr "{}" []
     = (Returned "No function called 'None'.", []).
Proof. repeat split. Qed.

(** C3 as stated fails on the action "book_tickets": it is not registered,
    and its text is not the text of the sentinel. *)
Lemma C3_two_texts :
  main_dispatch Stub.api_key Stub.requests_get Stub.repr
                (JString "unsupported_request") (JObject []) []
  = (Returned unsupported_text, [])
  /\ main_dispatch Stub.api_key Stub.requests_get Stub.repr
                   (JString "book_tickets") (JObject []) []
     = (Returned "No function called 'book_tickets'.", [])
  /\ "No function called 'book_tickets'." <> unsupported_text.
Proof. repeat split. discriminate. Qed.

(** C3 as amended, on the action "book_tickets". *)
Lemma C3_unrecognized_action_texts_witness :
  main_dispatch Stub.api_key Stub.requests_get Stub.repr
                (JString "book_tickets") (JObject []) []
  = (Returned "No function called 'book_tickets'.", [])
  /\ "No function called 'book_tickets'." <> unsupported_text.
Proof.
  apply (C3_unrecognized_action_texts Stub.api_key Stub.requests_get Stub.repr
           (JString "book_tickets") (JObject []) []); reflexivity.
Defined.

(** C4 on the catalog with sparse records: the popular movie without a
    title makes the handler, and the dispatch, raise KeyError. *)
Lemma C4_missing_title_escapes_witness :
  handle_get_popular_movies Stub.api_key Stub.sparse_requests_get Stub.repr []
  = (Raised (KeyError (JString "title")), [popular_request Stub.api_key])
  /\ main_dispatch Stub.api_key Stub.sparse_requests_get Stub.repr
                   (JString "get_popular_movies") (JObject []) []
     = (Raised (KeyError (JString "title")), [popular_request Stub.api_key]).
Proof.
  apply (C4_missing_title_escapes Stub.api_key Stub.sparse_requests_get Stub.repr []
           (JObject [("results", JArray [JObject [("vote_average", JInt 8)]])])
           (JObject []) [("vote_average", JInt 8)] []); reflexivity.
Defined.

(** The same run seen from [main]: nothing is printed and the loop is left
    with the KeyError. *)
Lemma main_stops_on_missing_title :
  main Stub.api_key Stub.prompt Stub.messages_create Stub.json_loads
       Stub.sparse_requests_get Stub.repr [Stub.popular_reply; "quit"] []
  = ([], Raised (KeyError (JString "title")), [popular_request Stub.api_key]).
Proof. reflexivity. Qed.

(** C5 on an intent for [get_movie_details] whose parameters are null:
    TypeError, and no catalog request. *)
Lemma C5_unusable_parameters_raise_witness :
  main_respond Stub.api_key Stub.requests_get Stub.repr
    (JObject [("function_name", JString "get_movie_details");
              ("parameters", JNull)]) []
  = (Raised TypeError, []).
Proof.
  exact (C5_unusable_parameters_raise Stub.api_key Stub.requests_get Stub.repr
           (JObject [("function_name", JString "get_movie_details");
                     ("parameters", JNull)])
           JNull true [] eq_refl eq_refl eq_refl).
Defined.

(** An intent for [get_movie_details] with empty parameters: the "could
    not extract" text. *)
Lemma missing_parameter_on_empty_mapping :
  main_respond Stub.api_key Stub.requests_get Stub.repr
    (JObject [("function_name", JString "get_movie_details");
              ("parameters", JObject [])]) []
  = (Returned "LLM could not extract the movie name.", []).
Proof. reflexivity. Qed.

(** C6 on a catalog of seven popular movies: the first five, as given. *)
Lemma C6_popular_first_five_in_order_witness :
  handle_get_popular_movies Stub.api_key Stub.requests_get Stub.repr []
  = (Returned ("The top 5 popular movies now:" ++ nl
               ++ "- Alpha (Rating: 8)" ++ nl ++ "- Bravo (Rating: 6)" ++ nl
               ++ "- Charlie (Rating: 9)" ++ nl ++ "- Delta (Rating: 7)" ++ nl
               ++ "- Echo (Rating: 5)"),
     [popular_request Stub.api_key]).
Proof.
  exact (proj1 (C6_popular_first_five_in_order Stub.api_key Stub.requests_get Stub.repr
                  [] _ Stub.popular_movies eq_refl eq_refl eq_refl)).
Defined.

(** C7 on a search with two results: the details of the first, 603. *)
Lemma C7_details_of_first_result_witness :
  handle_get_movie_details Stub.api_key Stub.requests_get Stub.repr
                           (JString "The Matrix") []
  = (Returned ("Details of 'The Matrix' movie:" ++ nl
               ++ "Overview: A hacker learns the truth." ++ nl
               ++ "Vote average: 8/10" ++ nl
               ++ "Release date: 1999-03-31"),
     [search_request Stub.api_key "movie" (JString "The Matrix");
      details_request Stub.api_key Stub.repr (JInt 603)]).
Proof.
  exact (proj1 (C7_details_of_first_result Stub.api_key Stub.requests_get Stub.repr
                  (JString "The Matrix") [] _ (JObject [("id", JInt 603)]) (JInt 603)
                  Stub.matrix_details [JObject [("id", JInt 604)]]
                  eq_refl eq_refl eq_refl eq_refl eq_refl)).
Defined.

(** C8 on seven credits: D and F, of equal popularity, lead in the order
    of the catalog; the two credits without popularity are not shown. *)
Lemma C8_credits_ranked_stably_witness :
  handle_get_actor_credits Stub.api_key Stub.requests_get Stub.repr
                           (JString "Keanu Reeves") []
  = (Returned ("'Keanu Reeves' (ID: 6384)'s top movies:" ++ nl
               ++ "- D (Character: d)" ++ nl ++ "- F (Character: f)" ++ nl
               ++ "- B (Character: b)" ++ nl ++ "- A (Character: a)" ++ nl
               ++ "- E (Character: e)"),
     [search_request Stub.api_key "person" (JString "Keanu Reeves");
      credits_request Stub.api_key Stub.repr (JInt 6384)]).
Proof.
  exact (proj1 (C8_credits_ranked_stably Stub.api_key Stub.requests_get Stub.repr
                  (JString "Keanu Reeves") [] _ (JObject [("id", JInt 6384)])
                  (JInt 6384) _ [] Stub.cast
                  eq_refl eq_refl eq_refl eq_refl eq_refl eq_refl eq_refl)).
Defined.

(** C9 on a name the catalog does not know: one call, the search. *)
Lemma C9_no_result_no_second_call_witness :
  handle_get_actor_credits Stub.api_key Stub.requests_get Stub.repr
                           (JString "Zzzznonexistent") []
  = (Returned "No actor named 'Zzzznonexistent'.",
     [search_request Stub.api_key "person" (JString "Zzzznonexistent")]).
Proof.
  exact (C9_no_result_no_second_call Stub.api_key Stub.requests_get Stub.repr false
           (JString "Zzzznonexistent") _ (JArray []) [] eq_refl eq_refl eq_refl).
Defined.


(** The ranking of the seven credits, by title. *)
Lemma ranked_cast_titles :
  (ranked <- sorted_reverse popularity_key (JArray Stub.cast) ;;
   oret (map (fun x => field x "title") ranked))%outcome
  = Returned [JString "D"; JString "F"; JString "B"; JString "A"; JString "E";
              JString "C"; JString "G"].
Proof. reflexivity. Qed.

(** * Concrete runs of the further properties *)

(** X2 on a prompt file of blanks: the start-up ends with RuntimeError. *)
Lemma startup_failure_kinds_witness :
  startup StubStart.getenv (FileText "   ")
  = inl (RuntimeError "Failed to load system prompt: `system_prompt.txt` is empty")
  /\ ((unset (StubStart.getenv "TMDB_API_KEY") || unset (StubStart.getenv "LLM_API_KEY")
       = false)
      /\ exists text, FileText "   " = FileText text /\ strip text = EmptyString).
Proof.
  split; [reflexivity|].
  destruct (startup_failure_kinds StubStart.getenv (FileText "   ") _ eq_refl)
    as [[H _]|[[_ [H _]]|[[_ [d [H _]]]|[H [text [E [Hs _]]]]]]];
    try discriminate H.
  split; [exact H|]. now exists text.
Defined.

(** The start-up on the stub environment and a prompt with blanks around
    it. *)
Lemma startup_on_stub :
  startup StubStart.getenv (FileText StubStart.prompt_text)
  = inr {| tmdb_api_key := "tmdb-key"; llm_api_key := "llm-key";
           system_prompt := "Answer with one JSON object." ++ nl ++ nl |}.
Proof. reflexivity. Qed.

(** X4 on the body [{}]. *)
Lemma clean_unwraps_fenced_reply_witness :
  clean ("```json" ++ nl ++ "{}" ++ nl ++ "```") = "{}"
  /\ clean ("```" ++ nl ++ "{}" ++ nl ++ "```") = "{}"
  /\ clean "{}" = "{}".
Proof. apply (clean_unwraps_fenced_reply "{}"); reflexivity. Defined.

(** X6 when the classifier is unavailable. *)
Lemma main_turn_degrades_witness :
  main_turn Stub.api_key Stub.prompt Stub.messages_create Stub.json_loads
            Stub.requests_get Stub.repr "offline" []
  = (Returned unsupported_text, []).
Proof.
  apply (main_turn_degrades Stub.api_key Stub.prompt Stub.messages_create
           Stub.json_loads Stub.requests_get Stub.repr "offline" []).
  left. reflexivity.
Defined.

(** X9 on a catalog that refuses every connection. *)
Lemma catalog_unreachable_witness :
  handle_get_popular_movies Stub.api_key Offline.requests_get Stub.repr []
  = (Returned "Error during API call: Connection refused",
     [popular_request Stub.api_key])
  /\ handle_get_movie_details Stub.api_key Offline.requests_get Stub.repr
                              (JString "Heat") []
     = (Returned "Error during API call: Connection refused",
        [search_request Stub.api_key "movie" (JString "Heat")])
  /\ handle_get_actor_credits Stub.api_key Offline.requests_get Stub.repr
                              (JString "Heat") []
     = (Returned "Error during API call: Connection refused",
        [search_request Stub.api_key "person" (JString "Heat")]).
Proof.
  apply (catalog_unreachable Stub.api_key Offline.requests_get Stub.repr
           (JString "Heat") [] "Connection refused").
  intros r. reflexivity.
Defined.

(** X10 on a catalog that answers the search and fails afterwards. *)
Lemma second_call_failure_witness :
  handle_get_movie_details Stub.api_key Offline.after_search Stub.repr
                           (JString "Heat") []
  = (Returned "Error during API call: 503 Server Error",
     [search_request Stub.api_key "movie" (JString "Heat");
      details_request Stub.api_key Stub.repr (JInt 11)]).
Proof.
  exact (second_call_failure Stub.api_key Offline.after_search Stub.repr true
           (JString "Heat") (JInt 11) [] "503 Server Error" eq_refl eq_refl).
Defined.

(** X11 on a catalog with nothing to list. *)
Lemma empty_lists_give_bare_headings_witness :
  handle_get_popular_movies Stub.api_key Offline.nothing_listed Stub.repr []
  = (Returned ("The top 5 popular movies now:" ++ nl), [popular_request Stub.api_key])
  /\ handle_get_actor_credits Stub.api_key Offline.nothing_listed Stub.repr
                              (JString "Ann") []
     = (Returned ("'Ann' (ID: 11)'s top movies:" ++ nl),
        [search_request Stub.api_key "person" (JString "Ann");
         credits_request Stub.api_key Stub.repr (JInt 11)]).
Proof.
  exact (empty_lists_give_bare_headings Stub.api_key Offline.nothing_listed Stub.repr
           (JString "Ann") (JInt 11) _ _ [] eq_refl eq_refl eq_refl eq_refl eq_refl).
Defined.

(** X12 on the seven credits: each of the two credits left out has at most
    the popularity of each of the five shown. *)
Lemma top_five_dominate_witness :
  exists ranked,
    sorted_reverse popularity_key (JArray Stub.cast) = Returned ranked
    /\ forall shown hidden,
         In shown (firstn 5 ranked) -> In hidden (skipn 5 ranked) ->
         (field_score hidden <= field_score shown)%Q.
Proof.
  exists (stable_desc popularity_score Stub.cast).
  split; [reflexivity|].
  intros shown hidden.
  exact (top_five_dominate Stub.cast (stable_desc popularity_score Stub.cast)
           shown hidden eq_refl eq_refl).
Defined.

(** X13 on an intent for the details of "The Matrix" with one more
    parameter. *)
Lemma main_respond_forwards_parameter_witness :
  main_respond Stub.api_key Stub.requests_get Stub.repr
    (JObject [("function_name", JString "get_movie_details");
              ("parameters", JObject [("year", JInt 1999);
                                      ("movie_name", JString "The Matrix")])]) []
  = handle_get_movie_details Stub.api_key Stub.requests_get Stub.repr
                             (JString "The Matrix") [].
Proof.
  exact (main_respond_forwards_parameter Stub.api_key Stub.requests_get Stub.repr
           (JObject [("function_name", JString "get_movie_details");
                     ("parameters", JObject [("year", JInt 1999);
                                             ("movie_name", JString "The Matrix")])])
           (JString "The Matrix") true
           [("year", JInt 1999); ("movie_name", JString "The Matrix")] []
           eq_refl eq_refl eq_refl).
Defined.

(** X14 on null parameters. *)
Lemma non_mapping_parameters_witness :
  exists o,
    main_dispatch Stub.api_key Stub.requests_get Stub.repr
                  (JString "get_actor_credits") JNull [] = (o, [])
    /\ (o = Returned "LLM could not extract the actor name." \/ o = Raised TypeError).
Proof.
  exact (non_mapping_parameters Stub.api_key Stub.requests_get Stub.repr
           false JNull [] eq_refl).
Defined.

(** X16 on four lines, the third of which is "QUIT", with a client whose
    [Message] has no [text]: two "not supported" answers, no request. *)
Lemma main_never_reaches_catalog_witness :
  main Stub.api_key Stub.prompt Anthropic.messages_create Anthropic.json_loads
       Stub.requests_get Stub.repr [Stub.popular_reply; "[]"; "QUIT"; "{}"] []
  = ([unsupported_text; unsupported_text], Returned tt, []).
Proof.
  apply (main_never_reaches_catalog Stub.api_key Stub.prompt Anthropic.messages_create
           Anthropic.json_loads Stub.requests_get Stub.repr
           [Stub.popular_reply; "[]"; "QUIT"; "{}"] []).
  intros line. unfold Anthropic.messages_create.
  now destruct (String.eqb line "offline").
Defined.

(** X17 on three lines, the second of which is "QUIT". *)
Lemma main_normal_end_is_quit_witness :
  exists before line after,
    ["{}"; "QUIT"; "[]"] = (before ++ line :: after)%list
    /\ lower line = "quit"
    /\ Forall (fun u => lower u <> "quit") before
    /\ List.length ["No function called 'None'."] = List.length before
    /\ main Stub.api_key Stub.prompt Stub.messages_create Stub.json_loads
            Stub.requests_get Stub.repr (before ++ [line])%list []
       = (["No function called 'None'."], Returned tt, []).
Proof.
  exact (main_normal_end_is_quit Stub.api_key Stub.prompt Stub.messages_create
           Stub.json_loads Stub.requests_get Stub.repr
           ["{}"; "QUIT"; "[]"] ["No function called 'None'."] [] [] eq_refl).
Defined.
